(** * krostar/test: the assertion-message engine

  A shallow embedding of the Go packages [internal/code] (package-AST
  cache and caller-site resolver), [internal/message] (the polarity-aware
  expression rewriter and [FromBool]) and [test] ([Assert], [Require],
  [logResult]), followed by the properties proved about them.

  Go values are modelled as the code has them: syntax nodes as an
  inductive type following [go/ast], type-checker answers as the lookups
  of [go/types.Info], maps as [gmap], a call returning [(string, error)]
  as a pair whose second component is [None] for a nil error, and a
  panic as an outcome of its own. *)

From Stdlib Require Import ZArith String Ascii List Bool DecimalString.
From stdpp Require Import base option strings list gmap.

Local Open Scope string_scope.
Set Warnings "-register-all".

(** ** go/token *)

Module token.

Definition Pos := Z.

Inductive Token :=
| ILLEGAL | INT | FLOAT | IMAG | CHAR | STRING
| ADD | SUB | MUL | QUO | REM
| AND | OR | XOR | SHL | SHR | AND_NOT
| LAND | LOR | ARROW
| EQL | LSS | GTR | NOT
| NEQ | LEQ | GEQ | TILDE.

#[global] Instance Token_eq_dec : EqDecision Token.
Proof. solve_decision. Defined.

Definition eqb (a b : Token) : bool := bool_decide (a = b).

(** [Token.String]: what [%v] prints for an operator. *)
Definition String (t : Token) : string :=
  match t with
  | ILLEGAL => "ILLEGAL" | INT => "INT" | FLOAT => "FLOAT" | IMAG => "IMAG"
  | CHAR => "CHAR" | STRING => "STRING"
  | ADD => "+" | SUB => "-" | MUL => "*" | QUO => "/" | REM => "%"
  | AND => "&" | OR => "|" | XOR => "^" | SHL => "<<" | SHR => ">>"
  | AND_NOT => "&^"
  | LAND => "&&" | LOR => "||" | ARROW => "<-"
  | EQL => "==" | LSS => "<" | GTR => ">" | NOT => "!"
  | NEQ => "!=" | LEQ => "<=" | GEQ => ">=" | TILDE => "~"
  end.

(** A resolved source position: file name and 1-based line. *)
Record Position := { Filename : string; Line : Z }.

End token.

(** ** go/ast: expression nodes *)

Module ast.

(** [*ast.Ident]; the position tells two occurrences of a name apart. *)
Record IdentT := { NamePos : token.Pos; Name : string }.

Inductive Expr :=
| BadExpr
| Ident (id : IdentT)
| Ellipsis (Elt : option Expr)
| BasicLit (Kind : token.Token) (Value : string)
| FuncLit (at_ : token.Pos)
| CompositeLit (Type_ : option Expr) (Elts : list Expr)
| ParenExpr (X : Expr)
| SelectorExpr (X : Expr) (Sel : option IdentT)
| IndexExpr (X Index : Expr)
| IndexListExpr (X : Expr) (Indices : list Expr)
| SliceExpr (X : Expr) (Low High Max : option Expr)
| TypeAssertExpr (X : Expr) (Type_ : option Expr)
| CallExpr (Fun : Expr) (Args : list Expr)
| StarExpr (X : Expr)
| UnaryExpr (Op : token.Token) (X : Expr)
| BinaryExpr (X : Expr) (Op : token.Token) (Y : Expr)
| KeyValueExpr (Key Value : Expr)
| ArrayType (Len : option Expr) (Elt : Expr)
| StructType (at_ : token.Pos)
| FuncType (at_ : token.Pos)
| InterfaceType (at_ : token.Pos)
| MapType (Key Value : Expr)
| ChanType (Value : Expr).

(** What [%T] prints for an expression node. *)
Definition GoType (e : Expr) : string :=
  match e with
  | BadExpr => "*ast.BadExpr"
  | Ident _ => "*ast.Ident"
  | Ellipsis _ => "*ast.Ellipsis"
  | BasicLit _ _ => "*ast.BasicLit"
  | FuncLit _ => "*ast.FuncLit"
  | CompositeLit _ _ => "*ast.CompositeLit"
  | ParenExpr _ => "*ast.ParenExpr"
  | SelectorExpr _ _ => "*ast.SelectorExpr"
  | IndexExpr _ _ => "*ast.IndexExpr"
  | IndexListExpr _ _ => "*ast.IndexListExpr"
  | SliceExpr _ _ _ _ => "*ast.SliceExpr"
  | TypeAssertExpr _ _ => "*ast.TypeAssertExpr"
  | CallExpr _ _ => "*ast.CallExpr"
  | StarExpr _ => "*ast.StarExpr"
  | UnaryExpr _ _ => "*ast.UnaryExpr"
  | BinaryExpr _ _ _ => "*ast.BinaryExpr"
  | KeyValueExpr _ _ => "*ast.KeyValueExpr"
  | ArrayType _ _ => "*ast.ArrayType"
  | StructType _ => "*ast.StructType"
  | FuncType _ => "*ast.FuncType"
  | InterfaceType _ => "*ast.InterfaceType"
  | MapType _ _ => "*ast.MapType"
  | ChanType _ => "*ast.ChanType"
  end.

(** The call node [*ast.CallExpr] on its own, as [GetCallerCallExpr]
    hands it out. *)
Record CallExprT := { Fun : Expr; Args : list Expr }.

Definition ofCall (c : CallExprT) : Expr := CallExpr (Fun c) (Args c).

(** A node met by [ast.Inspect]: an expression with its [Pos()], or a
    node of another class (declaration, statement, spec, field, ...). *)
Inductive Node :=
| ExprNode (pos : token.Pos) (e : Expr)
| OtherNode (pos : token.Pos).

Definition Node_Pos (n : Node) : token.Pos :=
  match n with
  | ExprNode p _ => p
  | OtherNode p => p
  end.

(** [*ast.File]: its [Pos()] and its nodes in the depth-first pre-order
    in which [ast.Inspect] calls its visitor while the visitor keeps
    answering [true]. *)
Record File := { File_Pos : token.Pos; Inspect : list Node }.

End ast.

(** ** go/constant *)

Module constant.

Inductive Kind := Unknown | Bool | String | Int | Float | Complex.

Inductive Value :=
| MakeUnknown
| MakeBool (b : bool)
| MakeString (s : string)
| MakeInt (n : Z)
| MakeFloat (text : string)
| MakeComplex (text : string).

Definition KindOf (v : Value) : Kind :=
  match v with
  | MakeUnknown => Unknown
  | MakeBool _ => Bool
  | MakeString _ => String
  | MakeInt _ => Int
  | MakeFloat _ => Float
  | MakeComplex _ => Complex
  end.

#[global] Instance Kind_eq_dec : EqDecision Kind.
Proof. solve_decision. Defined.

(** [constant.BoolVal]: the value of a Bool, false for Unknown; [None]
    stands for its panic on any other kind. *)
Definition BoolVal (v : Value) : option bool :=
  match v with
  | MakeBool b => Some b
  | MakeUnknown => Some false
  | _ => None
  end.

End constant.

(** ** go/types: what the type checker recorded *)

Module types.

Inductive BasicKind :=
| Invalid
| Bool | Int | Int8 | Int16 | Int32 | Int64
| Uint | Uint8 | Uint16 | Uint32 | Uint64 | Uintptr
| Float32 | Float64 | Complex64 | Complex128
| String | UnsafePointer
| UntypedBool | UntypedInt | UntypedRune | UntypedFloat | UntypedComplex
| UntypedString | UntypedNil.

#[global] Instance BasicKind_eq_dec : EqDecision BasicKind.
Proof. solve_decision. Defined.

(** [types.Type], as far as the rewriter looks into it.  The universe's
    [error] is the named type without a package; every other type is
    kept with the text of its [String()]. *)
Inductive Type_ :=
| Basic (kind : BasicKind) (name : string)
| Named (pkg : option string) (name : string)
| Pointer (elem : Type_)
| Signature (params results : list Type_) (text : string)
| Other (text : string).

Definition Universe_error : Type_ := Named None "error".

(** [types.Identical(t, types.Universe.Lookup("error").Type())]. *)
Definition Identical_to_error (t : Type_) : bool :=
  match t with
  | Named None name => bool_decide (name = "error")
  | _ => false
  end.

Fixpoint TypeString (t : Type_) : string :=
  match t with
  | Basic _ name => name
  | Named None name => name
  | Named (Some p) name => p +:+ "." +:+ name
  | Pointer elem => "*" +:+ TypeString elem
  | Signature _ _ text => text
  | Other text => text
  end.

(** The classes of [types.Object]. *)
Inductive ObjectKind :=
| PkgName | Const | TypeName | Var | Func | Label | Builtin | Nil.

(** [types.Object]: [Pkg] is [None] for the nil package of universe
    objects, [ParentIsUniverse] is [obj.Parent() == types.Universe]. *)
Record Object := {
  Kind : ObjectKind;
  Name : string;
  Pkg : option string;
  ParentIsUniverse : bool;
  Typ : option Type_;
}.

(** What [%T] prints for an object (a nil interface prints [<nil>]). *)
Definition GoType (o : option Object) : string :=
  match o with
  | None => "<nil>"
  | Some o =>
      match Kind o with
      | PkgName => "*types.PkgName"
      | Const => "*types.Const"
      | TypeName => "*types.TypeName"
      | Var => "*types.Var"
      | Func => "*types.Func"
      | Label => "*types.Label"
      | Builtin => "*types.Builtin"
      | Nil => "*types.Nil"
      end
  end.

(** [types.TypeAndValue]: [IsValue] is the answer of its method, [Value]
    is [None] for a nil constant value. *)
Record TypeAndValue := {
  IsValue : bool;
  TypeOfValue : option Type_;
  Value : option constant.Value;
}.

(** [types.Info]: the maps keyed by syntax node, as lookups. *)
Record Info := {
  Types : ast.Expr -> option TypeAndValue;
  Defs : ast.IdentT -> option Object;
  Uses : ast.IdentT -> option Object;
}.

(** Method [ObjectOf] of [Info]. *)
Definition ObjectOf (info : Info) (id : ast.IdentT) : option Object :=
  match Defs info id with
  | Some obj => Some obj
  | None => Uses info id
  end.

(** Method [TypeOf] of [Info]. *)
Definition TypeOf (info : Info) (e : ast.Expr) : option Type_ :=
  match Types info e with
  | Some tv => TypeOfValue tv
  | None =>
      match e with
      | ast.Ident id =>
          match ObjectOf info id with
          | Some obj => Typ obj
          | None => None
          end
      | _ => None
      end
  end.

End types.

(** ** Errors and what is handed to the formatting verbs *)

(** A Go [error] is kept as the call that built it: [errors.New(text)],
    or [fmt.Errorf(format, args...)] with its operands. *)
Inductive error :=
| errors_New (text : string)
| fmt_Errorf (format : string) (args : list operand)
| multierr_Combine (errs : list error)
with operand :=
| op_error (e : error)
| op_string (s : string)
| op_int (n : Z)
| op_Token (t : token.Token)
| op_Expr (e : ast.Expr)
| op_Object (o : option types.Object).

(** ** Go runtime outcomes: a call returns or panics *)

Inductive panic_value :=
| runtime_error (text : string)
| panic_string (s : string)
| panic_Sprintf (format : string) (args : list operand)
| panic_error (e : error).

Inductive outcome (A : Type) : Type :=
| Returns (a : A)
| Panics (reason : panic_value).
Arguments Returns {A} a.
Arguments Panics {A} reason.

#[global] Instance outcome_ret : MRet outcome := fun _ a => Returns a.
#[global] Instance outcome_bind : MBind outcome := fun _ _ f m =>
  match m with
  | Returns a => f a
  | Panics r => Panics r
  end.

Definition nil_dereference : panic_value :=
  runtime_error "invalid memory address or nil pointer dereference".
Definition index_out_of_range : panic_value :=
  runtime_error "index out of range".

(** [%t] of a boolean. *)
Definition fmt_t (b : bool) : string := if b then "true" else "false".

(** ** golang.org/x/tools/go/packages and go/format *)

Module packages.

(** [*token.FileSet] with the two uses the code makes of it:
    [fset.Position(pos)] and [format.Node(&buf, fset, expr)], which
    writes the node's source text or fails. *)
Record FileSet := {
  Position : token.Pos -> token.Position;
  format_Node : ast.Expr -> string + string;
}.

Record Package := {
  PkgPath : string;
  Errors : list error;
  Fset : FileSet;
  Syntax : list ast.File;
  TypesInfo : types.Info;
}.

End packages.

(** ** fmt: the values a caller passes as [...any] and their [%v] *)

Module fmt.

(** A Go interface value handed to a formatting verb: nil, a [string],
    an [int], a [bool], or a value of any other dynamic type, kept with
    the name of that type, the text [%v] gives it on its own and the text
    [%v] gives it as an element of a slice (they differ for a pointer to
    a struct, for instance). *)
Inductive any :=
| any_nil
| any_string (s : string)
| any_int (n : Z)
| any_bool (b : bool)
| any_other (typ : string) (text : string) (elem_text : string).

(** What [%T] prints. *)
Definition GoType (a : any) : string :=
  match a with
  | any_nil => "<nil>"
  | any_string _ => "string"
  | any_int _ => "int"
  | any_bool _ => "bool"
  | any_other typ _ _ => typ
  end.

(** [a == ""] on an interface value: a [string] that is empty. *)
Definition is_empty_string (a : any) : bool :=
  match a with
  | any_string s => bool_decide (s = "")
  | _ => false
  end.

(** The type assertion [a.(string)] with its [ok]. *)
Definition as_string (a : any) : option string :=
  match a with
  | any_string s => Some s
  | _ => None
  end.

Definition d (n : Z) : string := NilZero.string_of_int (Z.to_int n).

(** [%v] of one operand. *)
Definition v (a : any) : string :=
  match a with
  | any_nil => "<nil>"
  | any_string s => s
  | any_int n => d n
  | any_bool b => fmt_t b
  | any_other _ text _ => text
  end.

(** [%v] of an element of a slice. *)
Definition v_elem (a : any) : string :=
  match a with
  | any_other _ _ elem_text => elem_text
  | _ => v a
  end.

(** [%v] of a []any: the elements between brackets, one space apart. *)
Definition v_slice (l : list any) : string :=
  "[" +:+ String.concat " " (map v_elem l) +:+ "]".

End fmt.

(** ** What the functions take from the process they run in *)

(** [runtime_Caller skip] is [runtime.Caller(skip)] as seen from the frame
    of [message.FromBool]: file and line of the frame [skip] levels up, or
    [None] when there is none.  [packages_Load earlier dir] is what
    [packages.Load] answers for [dir] after the loads [earlier] (the
    sources on disk may change in between): the packages in the order in
    which [packages.Visit] reaches them, or an error.  [range_order m] is
    the order in which one [range] over the map [m] yields its values, a
    permutation that the Go runtime chooses.  [fmt_Sprintf] is
    [fmt.Sprintf] on a format that the caller of the library wrote. *)
Record Host := {
  runtime_Caller : Z -> option (string * Z);
  filepath_Dir : string -> string;
  filepath_Clean : string -> string;
  packages_Load : list string -> string -> list packages.Package + error;
  range_order : gmap string packages.Package -> list packages.Package;
  fmt_Sprintf : string -> list fmt.any -> string;
}.

(** ** internal/code *)

Module code.
Import packages.

(** The package-level variables: the cache [_astPkgPathToPkg] ([None] is
    the nil map), under the lock [_astLock], so that each call below is
    one atomic step.  [loads] records the directories handed to
    [packages.Load] so far. *)
Record State := {
  _astPkgPathToPkg : option (gmap string (gmap string Package));
  loads : list string;
}.

Definition lookupDir (st : State) (pkgDir : string)
  : option (gmap string Package) :=
  match _astPkgPathToPkg st with
  | Some cache => cache !! pkgDir
  | None => None
  end.

(** The callback of [packages.Visit]. *)
Definition visit (pkgPathToPkg : gmap string Package) (pkg : Package)
  : gmap string Package :=
  let m := <[PkgPath pkg := pkg]> pkgPathToPkg in
  if String.prefix "vendor/" (PkgPath pkg)
  then <[substring 7 (String.length (PkgPath pkg) - 7) (PkgPath pkg) := pkg]> m
  else m.

Definition ParsePackageAST (h : Host) (earlier : list string)
  (pkgDir : string) : gmap string Package + error :=
  match packages_Load h earlier pkgDir with
  | inr err => inr (fmt_Errorf "unable to load packages: %w" [op_error err])
  | inl pkgs =>
      let errs := flat_map Errors pkgs in
      if (0 <? length errs)%nat
      then inr (fmt_Errorf "loaded packages contained errors: %v"
                  [op_error (multierr_Combine errs)])
      else inl (fold_left visit pkgs ∅)
  end.

Definition GetPackageAST (h : Host) (st : State) (pkgDir : string)
  : (gmap string Package + error) * State :=
  match lookupDir st pkgDir with
  | Some found => (inl found, st)
  | None =>
      let loaded := (loads st ++ [pkgDir])%list in
      match ParsePackageAST h (loads st) pkgDir with
      | inr err =>
          (inr (fmt_Errorf "unable to parse caller package %q: %w"
                  [op_string pkgDir; op_error err]),
           {| _astPkgPathToPkg := _astPkgPathToPkg st; loads := loaded |})
      | inl pkgPathToPkg =>
          let cache :=
            match _astPkgPathToPkg st with
            | Some cache => cache
            | None => ∅
            end in
          let cache :=
            match cache !! pkgDir with
            | Some _ => cache
            | None => <[pkgDir := ∅]> cache
            end in
          (inl pkgPathToPkg,
           {| _astPkgPathToPkg := Some (<[pkgDir := pkgPathToPkg]> cache);
              loads := loaded |})
      end
  end.

Definition InitPackageASTCache (h : Host) (st : State) (pkgDir : string)
  : outcome unit * State :=
  match GetPackageAST h st pkgDir with
  | (inr err, st') =>
      (Panics (panic_error
                 (fmt_Errorf "fail to init package cache: %v" [op_error err])),
       st')
  | (inl _, st') => (Returns tt, st')
  end.

Definition findCallerPackageAndASTFile (h : Host)
  (pkgs : gmap string Package) (callerFile : string)
  : option (Package * ast.File) :=
  list_find
    (fun pf : Package * ast.File =>
       token.Filename (Position (Fset pf.1) (ast.File_Pos pf.2)) = callerFile)
    (flat_map (fun pkg => map (pair pkg) (Syntax pkg)) (range_order h pkgs))
  ≫= fun found => Some found.2.

(** The visitor handed to [ast.Inspect], on the variable [callExpr]. *)
Definition inspectNode (fset : FileSet) (line : Z)
  (callExpr : option ast.CallExprT) (node : ast.Node)
  : option ast.CallExprT :=
  match callExpr with
  | Some _ => callExpr
  | None =>
      if negb (token.Line (Position fset (ast.Node_Pos node)) =? line)%Z
      then callExpr
      else
        match node with
        | ast.ExprNode _ (ast.CallExpr f args) =>
            Some {| ast.Fun := f; ast.Args := args |}
        | _ => callExpr
        end
  end.

Definition getASTCallExprAtLine (fset : FileSet) (file : ast.File) (line : Z)
  : ast.CallExprT + error :=
  match fold_left (inspectNode fset line) (ast.Inspect file) None with
  | None => inr (errors_New "ast inspection did not return a node")
  | Some callExpr => inl callExpr
  end.

Definition GetCallerCallExpr (h : Host) (pkgs : gmap string Package)
  (callerFile : string) (callerLine : Z)
  : (ast.CallExprT * ast.File * Package) + error :=
  match findCallerPackageAndASTFile h pkgs callerFile with
  | None =>
      inr (fmt_Errorf "unable to find ast file and package for %s"
             [op_string callerFile])
  | Some (pkg, file) =>
      match getASTCallExprAtLine (Fset pkg) file callerLine with
      | inr err =>
          inr (fmt_Errorf "unable to get call expression: %v" [op_error err])
      | inl expr => inl (expr, file, pkg)
      end
  end.

End code.

(** ** internal/message *)

Module message.
Import packages.

Definition genericASTExprToString (pkg : Package) (expr : ast.Expr) : string :=
  match format_Node (Fset pkg) expr with
  | inl text => text
  | inr err => "<error formatting expression: " +:+ err +:+ ">"
  end.

(** The helpers take [None] for a nil [ast.Expr]. *)
Definition isExprNil (pkg : Package) (expr : option ast.Expr) : bool :=
  match expr with
  | None => false
  | Some (ast.Ident ident) =>
      match types.ObjectOf (TypesInfo pkg) ident with
      | Some obj =>
          match types.Kind obj with
          | types.Nil => true
          | _ => false
          end
      | None => false
      end
  | Some _ => false
  end.

Definition isExprBool (pkg : Package) (expr : option ast.Expr) : bool :=
  match expr with
  | None => false
  | Some expr =>
      match types.TypeOf (TypesInfo pkg) expr with
      | Some (types.Basic kind _) =>
          bool_decide (kind = types.Bool)
          || bool_decide (kind = types.UntypedBool)
      | _ => false
      end
  end.

Definition isExprFunc (pkg : Package) (expr : option ast.Expr) : bool :=
  match expr with
  | Some (ast.CallExpr _ _) => true
  | _ => false
  end.

Definition isExprFuncReturningOnlyError (pkg : Package)
  (expr : option ast.Expr) : bool :=
  match expr with
  | Some (ast.CallExpr fn _) =>
      match types.TypeOf (TypesInfo pkg) fn with
      | Some (types.Signature _ results _) =>
          match results with
          | [t] => types.Identical_to_error t
          | _ => false
          end
      | _ => false
      end
  | _ => false
  end.

(** [obj.Pkg().Path()] dereferences the package, which is nil for the
    objects of the universe. *)
Definition getIdentSelector (pkg : Package) (expr : option ast.IdentT)
  : outcome (string * string * option error) :=
  match expr with
  | None => Returns ("", "", None)
  | Some expr =>
      match types.ObjectOf (TypesInfo pkg) expr with
      | None => Returns ("", "", Some (errors_New "ident object is nil"))
      | Some obj =>
          match types.Pkg obj with
          | None => Panics nil_dereference
          | Some path => Returns (path, types.Name obj, None)
          end
      end
  end.

Definition mustGetExprBoolValue (pkg : Package) (expr : option ast.Expr)
  : outcome bool :=
  match expr with
  | None => Panics (panic_string "expr is nil")
  | Some expr =>
      let fail :=
        Panics (panic_Sprintf "type %v not found or value is not a bool"
                  [op_Expr expr]) in
      match types.Types (TypesInfo pkg) expr with
      | Some tv =>
          if types.IsValue tv then
            match types.Value tv with
            | Some v =>
                if bool_decide (constant.KindOf v = constant.Bool) then
                  match constant.BoolVal v with
                  | Some b => Returns b
                  | None => Panics (panic_Sprintf "%v not a Bool" [])
                  end
                else fail
            | None => fail
            end
          else fail
      | None => fail
      end
  end.

(** [expr.Args[i]] *)
Definition Args_at (args : list ast.Expr) (i : nat) : outcome ast.Expr :=
  match args !! i with
  | Some e => Returns e
  | None => Panics index_out_of_range
  end.

(** [%s] of a [types.Type] that may be nil. *)
Definition fmt_s_Type (t : option types.Type_) : string :=
  match t with
  | Some t => types.TypeString t
  | None => "%!s(<nil>)"
  end.

(** The second switch of the [*ast.CallExpr] case, on the package path
    [p] and the name [t] of the called function. *)
Definition callRepr (pkg : Package) (result : bool) (expr : ast.Expr)
  (args : list ast.Expr) (p t : string) : outcome (string * option error) :=
  let named (p' t' : string) := bool_decide (p = p') && bool_decide (t = t') in
  let arg i := e ← Args_at args i; Returns (genericASTExprToString pkg e) in
  if named "slices" "Contains" || named "strings" "Contains" then
    if result then
      a0 ← arg 0%nat; a1 ← arg 1%nat;
      Returns (a0 +:+ " contains " +:+ a1, None)
    else
      a0 ← arg 0%nat; a1 ← arg 1%nat;
      Returns (a0 +:+ " does not contain " +:+ a1, None)
  else if named "bytes" "Equal" || named "maps" "Equal"
          || named "reflect" "DeepEqual" || named "slices" "Equal" then
    if result then
      a0 ← arg 0%nat; a1 ← arg 1%nat;
      Returns (a0 +:+ " is equal to " +:+ a1, None)
    else
      a0 ← arg 0%nat; a1 ← arg 1%nat;
      Returns (a0 +:+ " is not equal to " +:+ a1, None)
  else if named "errors" "Is" then
    if result then
      a0 ← arg 0%nat; a1 ← arg 1%nat;
      Returns (a0 +:+ "'s error tree contains " +:+ a1, None)
    else
      a1 ← arg 1%nat; a0 ← arg 0%nat;
      Returns (a1 +:+ " is not in the error tree of " +:+ a0, None)
  else if named "errors" "As" then
    if result then
      a0 ← arg 0%nat; a1 ← Args_at args 1%nat;
      Returns (a0 +:+ " can be defined as "
               +:+ fmt_s_Type (types.TypeOf (TypesInfo pkg) a1), None)
    else
      a0 ← arg 0%nat; a1 ← Args_at args 1%nat;
      Returns (a0 +:+ " cannot be defined as "
               +:+ fmt_s_Type (types.TypeOf (TypesInfo pkg) a1), None)
  else
    Returns ("function " +:+ genericASTExprToString pkg expr
             +:+ " returned " +:+ fmt_t result, None).

(** A failed return [("", err)]. *)
Definition fails (format : string) (args : list operand)
  : outcome (string * option error) :=
  Returns ("", Some (fmt_Errorf format args)).

Fixpoint customizeASTExprRepr (pkg : Package) (result : bool)
  (expr : ast.Expr) {struct expr} : outcome (string * option error) :=
  let typ := types.TypeOf (TypesInfo pkg) expr in
  match expr with
  | ast.BinaryExpr X Op Y =>
      let x := genericASTExprToString pkg X in
      let y := genericASTExprToString pkg Y in
      if token.eqb Op token.LAND || token.eqb Op token.LOR then
        '(x, err) ← customizeASTExprRepr pkg result X;
        match err with
        | Some err =>
            fails "unable to get LAND/LOR %T.X custom repr: %v"
              [op_Expr expr; op_error err]
        | None =>
            '(y, err) ← customizeASTExprRepr pkg result Y;
            match err with
            | Some err =>
                fails "unable to get LAND/LOR %T.Y custom repr: %v"
                  [op_Expr expr; op_error err]
            | None =>
                match Op with
                | token.LAND =>
                    let sep := if result then ", and " else ", or " in
                    Returns (x +:+ sep +:+ y, None)
                | token.LOR =>
                    let sep := if result then ", or " else ", and " in
                    Returns (x +:+ sep +:+ y, None)
                | _ => fails "unhandled binary operator %v" [op_Token Op]
                end
            end
        end
      else if token.eqb Op token.EQL || token.eqb Op token.NEQ then
        let resultIsEqual :=
          (token.eqb Op token.EQL && result)
          || (token.eqb Op token.NEQ && negb result) in
        let xIsFunc := isExprFunc pkg (Some X) in
        let xIsFuncRetuningError := isExprFuncReturningOnlyError pkg (Some X) in
        let yIsNil := isExprNil pkg (Some Y) in
        let yIsBool := isExprBool pkg (Some Y) in
        if xIsFunc && xIsFuncRetuningError && yIsNil && resultIsEqual then
          Returns (x +:+ " returned no error", None)
        else if xIsFunc && xIsFuncRetuningError && yIsNil
                && negb resultIsEqual then
          Returns (x +:+ " returned an error", None)
        else if xIsFunc && yIsNil && resultIsEqual then
          Returns (x +:+ " returned nil", None)
        else if xIsFunc && yIsNil && negb resultIsEqual then
          Returns (x +:+ " returned not nil", None)
        else if xIsFunc && yIsBool then
          Returns (x +:+ " returned " +:+ fmt_t result, None)
        else if negb xIsFunc && yIsNil && resultIsEqual then
          Returns (x +:+ " is nil", None)
        else if negb xIsFunc && yIsNil && negb resultIsEqual then
          Returns (x +:+ " is not nil", None)
        else if negb xIsFunc && yIsBool && resultIsEqual then
          b ← mustGetExprBoolValue pkg (Some Y);
          Returns (x +:+ " is " +:+ fmt_t b, None)
        else if negb xIsFunc && yIsBool && negb resultIsEqual then
          b ← mustGetExprBoolValue pkg (Some Y);
          Returns (x +:+ " is not " +:+ fmt_t b, None)
        else if resultIsEqual then
          Returns (x +:+ " is equal to " +:+ y, None)
        else
          Returns (x +:+ " is not equal to " +:+ y, None)
      else if (token.eqb Op token.GTR && result)
              || (token.eqb Op token.LEQ && negb result) then
        Returns (x +:+ " is greater than " +:+ y, None)
      else if (token.eqb Op token.GEQ && negb result)
              || (token.eqb Op token.LSS && result) then
        Returns (x +:+ " is less than " +:+ y, None)
      else if (token.eqb Op token.GEQ && result)
              || (token.eqb Op token.LSS && negb result) then
        Returns (x +:+ " is greater than or equal to " +:+ y, None)
      else if (token.eqb Op token.GTR && negb result)
              || (token.eqb Op token.LEQ && result) then
        Returns (x +:+ " is less than or equal to " +:+ y, None)
      else fails "unhandled binary operator %v" [op_Token Op]

  | ast.CallExpr fn args =>
      match fn with
      | ast.FuncLit _ =>
          Returns (genericASTExprToString pkg expr +:+ " returned "
                   +:+ fmt_t result, None)
      | ast.Ident fn =>
          '(p, t, err) ← getIdentSelector pkg (Some fn);
          match err with
          | Some err =>
              fails "unable to get func ident selector from %T: %v"
                [op_error err; op_Expr expr]
          | None => callRepr pkg result expr args p t
          end
      | ast.SelectorExpr _ Sel =>
          '(p, t, err) ← getIdentSelector pkg Sel;
          match err with
          | Some err =>
              fails "unable to get func.Sel selector from %T: %v"
                [op_error err; op_Expr expr]
          | None => callRepr pkg result expr args p t
          end
      | _ => fails "unhandled function type %T" [op_Expr fn]
      end

  | ast.Ident ident =>
      let obj := types.ObjectOf (TypesInfo pkg) ident in
      match obj with
      | Some o =>
          match types.Kind o with
          | types.Var =>
              Returns ("var " +:+ types.Name o +:+ " is " +:+ fmt_t result,
                       None)
          | types.Const =>
              let isBool :=
                match typ with
                | Some (types.Basic kind _) =>
                    bool_decide (kind = types.Bool)
                    || bool_decide (kind = types.UntypedBool)
                | _ => false
                end in
              if isBool && types.ParentIsUniverse o then
                Returns ("literal " +:+ types.Name o, None)
              else
                Returns ("const " +:+ types.Name o +:+ " is "
                         +:+ fmt_t result, None)
          | _ => fails "unexpected ident obj of type %T" [op_Object obj]
          end
      | None => fails "unexpected ident obj of type %T" [op_Object obj]
      end

  | ast.ParenExpr X => customizeASTExprRepr pkg result X

  | ast.SelectorExpr _ _ =>
      Returns (genericASTExprToString pkg expr +:+ " is " +:+ fmt_t result,
               None)

  | ast.UnaryExpr Op X =>
      match Op with
      | token.NOT =>
          match X with
          | ast.CallExpr _ _ | ast.Ident _ | ast.ParenExpr _
          | ast.UnaryExpr _ _ =>
              customizeASTExprRepr pkg (negb result) X
          | _ => fails "unhandled unary expr operator %T" [op_Expr X]
          end
      | token.ARROW => customizeASTExprRepr pkg result X
      | _ => fails "unhandled unary operator %T" [op_Token Op]
      end

  | _ => fails "unhandled expr type %T" [op_Expr expr]
  end.

(** The end of [FromBool]: the rendering of the chosen argument, or on
    its failure the text of the whole call with the error. *)
Definition argRepr (pkg : Package) (result : bool) (expr : ast.CallExprT)
  (arg : outcome ast.Expr) : outcome (string * option error) :=
  arg ← arg;
  '(msg, err) ← customizeASTExprRepr pkg result arg;
  match err with
  | Some err =>
      Returns (genericASTExprToString pkg (ast.ofCall expr),
               Some (fmt_Errorf "unable to get arg repr: %v" [op_error err]))
  | None => Returns (msg, None)
  end.

Definition FromBool (h : Host) (st : code.State) (callerStackIndex : Z)
  (result : bool) : outcome (string * option error) * code.State :=
  match runtime_Caller h (callerStackIndex + 1) with
  | None =>
      (Returns ("", Some (errors_New "no caller information available")), st)
  | Some (callerFile, callerLine) =>
      match code.GetPackageAST h st
              (filepath_Clean h (filepath_Dir h callerFile)) with
      | (inr err, st) =>
          (fails "unable to get package AST: %v" [op_error err], st)
      | (inl pkgPathToPkg, st) =>
          match code.GetCallerCallExpr h pkgPathToPkg callerFile callerLine with
          | inr err =>
              (fails "unable to get call expr from caller: %v" [op_error err],
               st)
          | inl (expr, _, pkg) =>
              let l := length (ast.Args expr) in
              if (l =? 1)%nat then
                (argRepr pkg result expr (Args_at (ast.Args expr) 0), st)
              else if (2 <=? l)%nat then
                (argRepr pkg result expr (Args_at (ast.Args expr) 1), st)
              else
                (fails "unexpected call expr arguments number %d"
                   [op_int (Z.of_nat l)], st)
          end
      end
  end.

End message.

(** ** test: Assert, Require and logResult *)

(** A [TestingT] is an interface: what the library does with it is the
    sequence of the methods it calls on it, with their operands. *)
Inductive TCall :=
| Helper
| Fail
| FailNow
| Logf (format : string) (args : list operand).

(** A function on a [TestingT]: the calls made on it, how the function
    ended, and the package-AST cache afterwards. *)
Definition Run (A : Type) : Type := list TCall * outcome A * code.State.

(** The two switches for success messages: the package variable and the
    command-line flag [check.display-success-messages]. *)
Record Flags := {
  SuccessMessageEnabled : bool;
  _flagEnableSuccessMessage : bool;
}.

(** The two [Logf] statements that [logResult] and [eval] share. *)
Definition internalFailure (err : option error) : list TCall :=
  match err with
  | Some err =>
      [Logf "krostar/test internal failure: unable to get assertion message: %v"
         [op_error err]]
  | None => []
  end.

Definition logMsg (result : bool) (msg : string) : TCall :=
  if result then Logf "Success: %s" [op_string msg]
  else Logf "Error: %s" [op_string msg].

Module test.

(** The switch on [len(msgAndArgs)] of [logResult]: the message with the
    caller's operands behind it. *)
Definition withMsgAndArgs (h : Host) (msg : string)
  (msgAndArgs : list fmt.any) : string :=
  match msgAndArgs with
  | [] => msg
  | [a] => msg +:+ " [" +:+ fmt.v a +:+ "]"
  | a :: rest =>
      match fmt.as_string a with
      | Some format =>
          msg +:+ " [" +:+ fmt_Sprintf h format rest +:+ "]"
      | None => msg +:+ " " +:+ fmt.v_slice msgAndArgs
      end
  end.

Definition logResult (h : Host) (flags : Flags) (st : code.State)
  (result : bool) (callerStackIndex : Z) (msgAndArgs : list fmt.any)
  : Run unit :=
  let msgAndArgs :=
    match msgAndArgs with
    | a :: rest => if fmt.is_empty_string a then rest else msgAndArgs
    | [] => msgAndArgs
    end in
  if (result && (SuccessMessageEnabled flags || _flagEnableSuccessMessage flags))
     || negb result then
    match message.FromBool h st (callerStackIndex + 1) result with
    | (Panics reason, st) => ([Helper], Panics reason, st)
    | (Returns (msg, err), st) =>
        let msg := withMsgAndArgs h msg msgAndArgs in
        let logged :=
          if negb (bool_decide (msg = "")) then [logMsg result msg] else [] in
        (Helper :: internalFailure err ++ logged, Returns tt, st)%list
    end
  else ([Helper], Returns tt, st).

Definition Assert (h : Host) (flags : Flags) (st : code.State)
  (result : bool) (msgAndArgs : list fmt.any) : Run bool :=
  match logResult h flags st result 1 msgAndArgs with
  | (calls, Panics reason, st) => (Helper :: calls, Panics reason, st)
  | (calls, Returns _, st) =>
      (Helper :: calls ++ (if negb result then [Fail] else []),
       Returns result, st)%list
  end.

Definition Require (h : Host) (flags : Flags) (st : code.State)
  (result : bool) (msgAndArgs : list fmt.any) : Run unit :=
  match logResult h flags st result 1 msgAndArgs with
  | (calls, Panics reason, st) => (Helper :: calls, Panics reason, st)
  | (calls, Returns _, st) =>
      (Helper :: calls ++ (if negb result then [FailNow] else []),
       Returns tt, st)%list
  end.

End test.

(** ** src/assert.go: the same package with the function [eval] *)

Module assert_go.

(** [msgAndArgs[0].(string)] without [ok] panics on another type. *)
Definition must_string (a : fmt.any) : outcome string :=
  match a with
  | fmt.any_string s => Returns s
  | fmt.any_nil =>
      Panics (runtime_error
                "interface conversion: interface {} is nil, not string")
  | _ =>
      Panics (runtime_error
                ("interface conversion: interface {} is " +:+ fmt.GoType a
                 +:+ ", not string"))
  end.

Definition eval (h : Host) (flags : Flags) (st : code.State)
  (result : bool) (callerStackIndex : Z) (msgAndArgs : list fmt.any)
  : Run bool :=
  if negb result || (result && SuccessMessageEnabled flags) then
    match message.FromBool h st (callerStackIndex + 1) result with
    | (Panics reason, st) => ([Helper], Panics reason, st)
    | (Returns (msg, err), st) =>
        let msg : outcome string :=
          match msgAndArgs with
          | [] => Returns msg
          | [a] => Returns (msg +:+ " [" +:+ fmt.v a +:+ "]")
          | a :: rest =>
              format ← must_string a;
              Returns (msg +:+ " [" +:+ fmt_Sprintf h format rest +:+ "]")
          end in
        match msg with
        | Panics reason => (Helper :: internalFailure err, Panics reason, st)
        | Returns msg =>
            let logged :=
              if (0 <? String.length msg)%nat then [logMsg result msg]
              else [] in
            (Helper :: internalFailure err ++ logged, Returns result, st)%list
        end
    end
  else ([Helper], Returns result, st).

(** The drop of a leading empty string that [Assert] and [Require] share. *)
Definition dropEmpty (msgAndArgs : list fmt.any) : list fmt.any :=
  match msgAndArgs with
  | a :: rest => if fmt.is_empty_string a then rest else msgAndArgs
  | [] => msgAndArgs
  end.

Definition Assert (h : Host) (flags : Flags) (st : code.State)
  (result : bool) (msgAndArgs : list fmt.any) : Run bool :=
  match eval h flags st result 1 (dropEmpty msgAndArgs) with
  | (calls, out, st) => (Helper :: calls, out, st)
  end.

Definition Require (h : Host) (flags : Flags) (st : code.State)
  (result : bool) (msgAndArgs : list fmt.any) : Run unit :=
  match eval h flags st result 1 (dropEmpty msgAndArgs) with
  | (calls, Panics reason, st) => (Helper :: calls, Panics reason, st)
  | (calls, Returns passed, st) =>
      (Helper :: calls ++ (if negb passed then [FailNow] else []),
       Returns tt, st)%list
  end.

End assert_go.

(** ** check: ready-made checks for Assert and Require *)

Module check.


(** [Panics]: the function [f] is given by what a call of it does, [None]
    being the nil function; [assertReason], when there is one, answers
    with the text of its error, [None] for a nil error.  The range over an
    integer in this module needs Go 1.22, where [panic(nil)] reaches
    [recover] as a [*runtime.PanicNilError]: a recovered reason is nil
    only when the function did not panic. *)
Definition Panics (f : option (outcome unit))
  (assertReason : option (panic_value -> outcome (option string)))
  : outcome (bool * string) :=
  match f with
  | None => Returns (false, "function to test for panic must not be nil")
  | Some run =>
      match run with
      | Returns _ => Returns (false, "expected function to panic")
      | Panics reason =>
          match assertReason with
          | Some assertReason =>
              reasonErr ← assertReason reason;
              match reasonErr with
              | Some reasonErr =>
                  Returns (false,
                           "function panicked like expected, but reason assertion failed: "
                           +:+ reasonErr)
              | None => Returns (true, "function panicked like expected")
              end
          | None => Returns (true, "function panicked like expected")
          end
      end
  end.

End check.

(** ** double: the spy on a TestingT *)

Module double.

(** The methods of the interface, as the calls recorded on a [TestingT]. *)
Abbreviation onHelper := Helper.
Abbreviation onFail := Fail.
Abbreviation onFailNow := FailNow.
Abbreviation onLogf := Logf.

Definition newline : string := String (ascii_of_nat 10) "".
Definition tab : string := String (ascii_of_nat 9) "".

(** A value kept in a record of the spy: a nil interface, a value of the
    marker type [spyTestingTRecordIgnoreParam], a function, a string, the
    [[]any] of a variadic call, or a value of another type given by the
    name of that type. *)
Inductive param :=
| param_nil
| param_ignore (n : Z)
| param_func (signature : string) (isNil : bool)
| param_string (s : string)
| param_args (args : list operand)
| param_other (typ : string) (text : string).

(** [reflect.Type]. *)
Inductive rtype :=
| T_ignore
| T_func (signature : string)
| T_string
| T_args
| T_other (typ : string).

#[global] Instance rtype_eq_dec : EqDecision rtype.
Proof. solve_decision. Defined.

(** [reflect.ValueOf(p).Type()], which panics with a [*reflect.ValueError]
    on the zero [Value] that a nil interface gives. *)
Definition Type_of (p : param) : outcome rtype :=
  match p with
  | param_nil =>
      Panics (panic_error
                (errors_New "reflect: call of reflect.Value.Type on zero Value"))
  | param_ignore _ => Returns T_ignore
  | param_func signature _ => Returns (T_func signature)
  | param_string _ => Returns T_string
  | param_args _ => Returns T_args
  | param_other typ _ => Returns (T_other typ)
  end.

(** [v.Kind() == reflect.Func && v.IsNil()] *)
Definition isNilFunc (p : param) : bool :=
  match p with
  | param_func _ isNil => isNil
  | _ => false
  end.

Definition isFunc (p : param) : bool :=
  match p with
  | param_func _ _ => true
  | _ => false
  end.

Record SpyTestingTRecord := {
  Method : string;
  Inputs : list param;
  Outputs : list param;
}.

(** The loop of [assertParams], on slices of the same length. *)
Fixpoint assertParamsFrom (x y : list param) : outcome bool :=
  match x, y with
  | a :: x, b :: y =>
      ia ← Type_of a;
      if bool_decide (ia = T_ignore) then assertParamsFrom x y
      else
        ib ← Type_of b;
        if bool_decide (ib = T_ignore) then assertParamsFrom x y
        else if negb (bool_decide (ia = ib)) then Returns false
        else if isFunc a && negb (Bool.eqb (isNilFunc a) (isNilFunc b))
             then Returns false
        else assertParamsFrom x y
  | _, _ => Returns true
  end.

Definition assertParams (x y : list param) : outcome bool :=
  if negb (length x =? length y)%nat then Returns false
  else assertParamsFrom x y.

Definition seemsEqualTo (a b : SpyTestingTRecord) : outcome bool :=
  if negb (bool_decide (Method a = Method b)) then Returns false
  else
    inputs ← assertParams (Inputs a) (Inputs b);
    if negb inputs then Returns false
    else
      outputs ← assertParams (Outputs a) (Outputs b);
      if negb outputs then Returns false else Returns true.

(** The spy: its fields, and for [underlyingT] the calls that were
    handed on to the wrapped [TestingT]. *)
Record Spy := {
  underlyingT : list TCall;
  failed : bool;
  logs : list string;
  records : list SpyTestingTRecord;
}.

Definition NewSpy : Spy :=
  {| underlyingT := []; failed := false; logs := []; records := [] |}.

Definition record (method : string) (inputs : list param) : SpyTestingTRecord :=
  {| Method := method; Inputs := inputs; Outputs := [] |}.

Definition Helper (spy : Spy) : Spy :=
  {| underlyingT := underlyingT spy ++ [onHelper];
     failed := failed spy;
     logs := logs spy;
     records := records spy ++ [record "Helper" []] |}%list.

Definition Fail (spy : Spy) : Spy :=
  {| underlyingT := underlyingT spy ++ [onFail];
     failed := true;
     logs := logs spy;
     records := records spy ++ [record "Fail" []] |}%list.

Definition FailNow (spy : Spy) : Spy :=
  {| underlyingT := underlyingT spy ++ [onFailNow];
     failed := true;
     logs := logs spy;
     records := records spy ++ [record "FailNow" []] |}%list.

(** [Sprintf] is [fmt.Sprintf] on the operands of the call. *)
Definition Logf (Sprintf : string -> list operand -> string) (spy : Spy)
  (format : string) (args : list operand) : Spy :=
  {| underlyingT := underlyingT spy ++ [onLogf format args];
     failed := failed spy;
     logs := logs spy ++ [Sprintf format args];
     records := records spy
                ++ [record "Logf" [param_string format; param_args args]] |}%list.

(** A call on the [TestingT] interface, when the [TestingT] is the spy. *)
Definition call (Sprintf : string -> list operand -> string) (spy : Spy)
  (c : TCall) : Spy :=
  match c with
  | onHelper => Helper spy
  | onFail => Fail spy
  | onFailNow => FailNow spy
  | onLogf format args => Logf Sprintf spy format args
  end.

(** The expectations, as the calls they make on the real test. *)
Definition ExpectNoLogs (spy : Spy) : list TCall :=
  onHelper ::
  if (0 <? length (logs spy))%nat then
    [onLogf ("Expected no logs, got:" +:+ newline +:+ tab +:+ "%s")
       [op_string (String.concat newline (logs spy))];
     onFail]
  else [].

Definition ExpectTestToFail (spy : Spy) : list TCall :=
  onHelper ::
  if negb (failed spy) then
    [onLogf "Expected test to fail but test succeeded" []; onFail]
  else [].

Definition ExpectTestToPass (spy : Spy) : list TCall :=
  onHelper ::
  if failed spy then
    [onLogf "Expected test to succeed but test failed" []; onFail]
  else [].

End double.

(** ** A small test package to run the functions on *)

Module sample.
Import packages.

Definition id (name : string) : ast.Expr :=
  ast.Ident {| ast.NamePos := 0%Z; ast.Name := name |}.

Definition sel (x name : string) : ast.Expr :=
  ast.SelectorExpr (id x) (Some {| ast.NamePos := 0%Z; ast.Name := name |}).

(** Source text of the expressions used below, as gofmt writes them. *)
Fixpoint text (e : ast.Expr) : string :=
  match e with
  | ast.Ident i => ast.Name i
  | ast.BasicLit _ value => value
  | ast.ParenExpr x => "(" +:+ text x +:+ ")"
  | ast.SelectorExpr x (Some s) => text x +:+ "." +:+ ast.Name s
  | ast.IndexExpr x i => text x +:+ "[" +:+ text i +:+ "]"
  | ast.UnaryExpr op x => token.String op +:+ text x
  | ast.BinaryExpr x op y => text x +:+ " " +:+ token.String op +:+ " " +:+ text y
  | ast.CallExpr f args =>
      text f +:+ "(" +:+ String.concat ", " (map text args) +:+ ")"
  | _ => "?"
  end.

Definition boolType : types.Type_ := types.Basic types.Bool "bool".

Definition object (kind : types.ObjectKind) (name : string)
  (pkg : option string) (universe : bool) (t : option types.Type_)
  : types.Object :=
  {| types.Kind := kind; types.Name := name; types.Pkg := pkg;
     types.ParentIsUniverse := universe; types.Typ := t |}.

(** The objects of the test file: the universe's [true], [false] and
    [nil], [errors.Is], the error variables [errw] and [err], the
    function [check]; every other name is a boolean variable. *)
Definition uses (i : ast.IdentT) : option types.Object :=
  let n := ast.Name i in
  if bool_decide (n = "true") || bool_decide (n = "false") then
    Some (object types.Const n None true
            (Some (types.Basic types.UntypedBool "untyped bool")))
  else if bool_decide (n = "nil") then
    Some (object types.Nil n None true
            (Some (types.Basic types.UntypedNil "untyped nil")))
  else if bool_decide (n = "Is") then
    Some (object types.Func n (Some "errors") false None)
  else if bool_decide (n = "errw") || bool_decide (n = "err") then
    Some (object types.Var n (Some "example") false
            (Some types.Universe_error))
  else if bool_decide (n = "check") then
    Some (object types.Func n (Some "example") false
            (Some (types.Signature [] [boolType] "func() bool")))
  else Some (object types.Var n (Some "example") false (Some boolType)).

Definition typesOf (e : ast.Expr) : option types.TypeAndValue :=
  match e with
  | ast.Ident i =>
      let n := ast.Name i in
      if bool_decide (n = "true") || bool_decide (n = "false") then
        Some {| types.IsValue := true; types.TypeOfValue := Some boolType;
                types.Value := Some (constant.MakeBool (bool_decide (n = "true"))) |}
      else
        match uses i with
        | Some o =>
            Some {| types.IsValue := true; types.TypeOfValue := types.Typ o;
                    types.Value := None |}
        | None => None
        end
  | ast.BinaryExpr _ _ _ | ast.UnaryExpr _ _ | ast.ParenExpr _
  | ast.IndexExpr _ _ | ast.CallExpr _ _ =>
      Some {| types.IsValue := true; types.TypeOfValue := Some boolType;
              types.Value := None |}
  | _ => None
  end.

Definition info : types.Info :=
  {| types.Types := typesOf; types.Defs := fun _ => None; types.Uses := uses |}.

Definition file_go : string := "/src/example/example_test.go".

(** Positions are line numbers in the one file of the package. *)
Definition fset : FileSet :=
  {| Position := fun pos : Z => {| token.Filename := file_go; token.Line := pos |};
     format_Node := fun e => inl (text e) |}.

Definition assertCall (args : list ast.Expr) : ast.Expr :=
  ast.CallExpr (sel "test" "Assert") args.

(** The test file:
    line 10: [test.Assert(t, err == nil)],
    line 11: [test.Assert(check())],
    line 12: [check(); test.Assert(t, ok)],
    line 13: [test.Assert(t, flags[0])],
    line 14: [test.Assert(t, false, msgAndArgs...)]. *)
Definition file : ast.File :=
  {| ast.File_Pos := 1%Z;
     ast.Inspect :=
       [ ast.OtherNode 1%Z; ast.OtherNode 9%Z;
         ast.OtherNode 10%Z;
         ast.ExprNode 10%Z
           (assertCall [id "t"; ast.BinaryExpr (id "err") token.EQL (id "nil")]);
         ast.ExprNode 10%Z (sel "test" "Assert");
         ast.OtherNode 11%Z;
         ast.ExprNode 11%Z (assertCall [ast.CallExpr (id "check") []]);
         ast.ExprNode 11%Z (ast.CallExpr (id "check") []);
         ast.OtherNode 12%Z;
         ast.ExprNode 12%Z (ast.CallExpr (id "check") []);
         ast.ExprNode 12%Z (assertCall [id "t"; id "ok"]);
         ast.OtherNode 13%Z;
         ast.ExprNode 13%Z
           (assertCall [id "t"; ast.IndexExpr (id "flags") (ast.BasicLit token.INT "0")]);
         ast.OtherNode 14%Z;
         ast.ExprNode 14%Z (assertCall [id "t"; id "false"; id "msgAndArgs"]) ] |}.

Definition pkg : Package :=
  {| PkgPath := "example"; Errors := []; Fset := fset; Syntax := [file];
     TypesInfo := info |}.

(** A fragment of [fmt.Sprintf]: the verbs [%v], [%s], [%d] and [%t]
    on operands they accept, and [%%]. *)
Fixpoint Sprintf (format : string) (args : list fmt.any) : string :=
  match format with
  | EmptyString => ""
  | String "%" (String c rest) =>
      if bool_decide (c = "%"%char) then String "%" (Sprintf rest args)
      else
        match args with
        | a :: args => fmt.v a +:+ Sprintf rest args
        | [] => "%!" +:+ String c "(MISSING)" +:+ Sprintf rest args
        end
  | String c rest => String c (Sprintf rest args)
  end.

(** The process: the stack seen from [FromBool] has the test function's
    call at depth [depth] on line [line] of [file]. *)
Definition hostOf (file : string) (depth line : Z) : Host :=
  {| runtime_Caller := fun skip =>
       if bool_decide (skip = depth) then Some (file, line)
       else if bool_decide (0 <= skip < depth)%Z
            then Some ("/src/krostar/test/assert.go", 1%Z)
       else None;
     filepath_Dir := fun f =>
       if bool_decide (f = file_go) then "/src/example" else ".";
     filepath_Clean := fun d => d;
     packages_Load := fun _ dir =>
       if bool_decide (dir = "/src/example") then inl [pkg]
       else inr (errors_New "no such directory");
     range_order := fun m => (map_to_list m).*2;
     fmt_Sprintf := Sprintf |}.

Definition host : Z -> Z -> Host := hostOf file_go.

Definition empty : code.State :=
  {| code._astPkgPathToPkg := None; code.loads := [] |}.

Definition quiet : Flags :=
  {| SuccessMessageEnabled := false; _flagEnableSuccessMessage := false |}.

End sample.

(** ** Notions used in the statements *)

(** The operands under which [!] is rendered: a call, an identifier, a
    parenthesized or a unary expression. *)
Definition negatable (e : ast.Expr) : bool :=
  match e with
  | ast.CallExpr _ _ | ast.Ident _ | ast.ParenExpr _ | ast.UnaryExpr _ _ => true
  | _ => false
  end.

(** The cache after [GetPackageAST] was called on each of [dirs] in turn. *)
Definition after (h : Host) (st : code.State) (dirs : list string)
  : code.State :=
  fold_left (fun st dir => (code.GetPackageAST h st dir).2) dirs st.

(** A node that the visitor of [getASTCallExprAtLine] takes: a call
    expression whose position is on the line. *)
Definition callOnLine (fset : packages.FileSet) (line : Z) (node : ast.Node)
  : bool :=
  (token.Line (packages.Position fset (ast.Node_Pos node)) =? line)%Z
  && match node with
     | ast.ExprNode _ (ast.CallExpr _ _) => true
     | _ => false
     end.

(** The wording of a comparison with [nil]: for a call that returns only
    an error, for another call, and for an expression that is no call. *)
Definition nilWording (isFunc onlyError isNil : bool) : string :=
  if isFunc then
    if onlyError then
      if isNil then " returned no error" else " returned an error"
    else
      if isNil then " returned nil" else " returned not nil"
  else
    if isNil then " is nil" else " is not nil".


(** The name under which the spy records a call. *)
Definition methodName (c : TCall) : string :=
  match c with
  | Helper => "Helper"
  | Fail => "Fail"
  | FailNow => "FailNow"
  | Logf _ _ => "Logf"
  end.

Definition isLogf (c : TCall) : bool :=
  match c with
  | Logf _ _ => true
  | _ => false
  end.

(** The spy after a sequence of calls. *)
Definition perform (Sprintf : string -> list operand -> string)
  (spy : double.Spy) (calls : list TCall) : double.Spy :=
  fold_left (double.call Sprintf) calls spy.

(** What the calls to [Logf] among [calls] have logged. *)
Definition logLines (Sprintf : string -> list operand -> string)
  (calls : list TCall) : list string :=
  omap (fun c =>
          match c with
          | Logf format args => Some (Sprintf format args)
          | _ => None
          end) calls.

(** Two recorded values that [seemsEqualTo] lets pass for one another:
    one of them is the marker to ignore, or they have the same type and,
    for functions, are both nil or both not nil. *)
Definition isIgnore (p : double.param) : bool :=
  match p with
  | double.param_ignore _ => true
  | _ => false
  end.

Definition sameType (a b : double.param) : bool :=
  match double.Type_of a, double.Type_of b with
  | Returns ta, Returns tb => bool_decide (ta = tb)
  | _, _ => false
  end.

Definition sameShape (a b : double.param) : bool :=
  isIgnore a || isIgnore b
  || (sameType a b
      && (negb (double.isFunc a)
          || Bool.eqb (double.isNilFunc a) (double.isNilFunc b))).

Definition similar (x y : list double.param) : bool :=
  (length x =? length y)%nat
  && forallb (fun pq => sameShape pq.1 pq.2) (zip x y).

Definition noNil (x : list double.param) : Prop :=
  Forall (fun p => p <> double.param_nil) x.

(** ** More of the test package *)

Module more.
Import packages.

(** The test package with the universe's type [bool] among its objects,
    for the conversion [bool(ok)], and with [strings.Contains] and
    [reflect.DeepEqual]. *)
Definition uses (i : ast.IdentT) : option types.Object :=
  if bool_decide (ast.Name i = "bool") then
    Some (sample.object types.TypeName "bool" None true (Some sample.boolType))
  else if bool_decide (ast.Name i = "Contains") then
    Some (sample.object types.Func "Contains" (Some "strings") false None)
  else if bool_decide (ast.Name i = "DeepEqual") then
    Some (sample.object types.Func "DeepEqual" (Some "reflect") false None)
  else sample.uses i.

Definition pkg : Package :=
  {| PkgPath := "example"; Errors := []; Fset := sample.fset;
     Syntax := [sample.file];
     TypesInfo := {| types.Types := sample.typesOf;
                     types.Defs := fun _ => None;
                     types.Uses := uses |} |}.

(** A package that does not compile, and a vendored package. *)
Definition broken : Package :=
  {| PkgPath := "broken"; Errors := [errors_New "undefined: x"];
     Fset := sample.fset; Syntax := []; TypesInfo := sample.info |}.




Definition SprintfOp (format : string) (args : list operand) : string :=
  sample.Sprintf format
    (map (fun o => match o with
                   | op_string s => fmt.any_string s
                   | op_int n => fmt.any_int n
                   | _ => fmt.any_nil
                   end) args).

(** Two records of a call to [Logf]: one as a test expects it, with the
    marker in place of the arguments, and one as the spy has it. *)
Definition expected : double.SpyTestingTRecord :=
  double.record "Logf" [double.param_string "Error: %s"; double.param_ignore 42].

Definition actual : double.SpyTestingTRecord :=
  double.record "Logf"
    [double.param_string "Error: %s";
     double.param_args [op_string "literal false"]].

End more.

(** * Properties *)

Import message.

(** ** The rewriter *)

Section Rewriter.

Variable pkg : packages.Package.

Abbreviation render := (customizeASTExprRepr pkg).
Abbreviation src := (genericASTExprToString pkg).

(** C1. [a && b] is rendered exactly when both operands are rendered
    under the same polarity as the whole, and is then the two renderings
    joined by ", and " under polarity true and by ", or " under polarity
    false; for [a || b] the two joiners are swapped. *)
Theorem C1_logical_operators_join_operands (r : bool) (X Y : ast.Expr)
  (s : string) :
  (render r (ast.BinaryExpr X token.LAND Y) = Returns (s, None)
   <-> exists x y,
       render r X = Returns (x, None) /\ render r Y = Returns (y, None)
       /\ s = x +:+ (if r then ", and " else ", or ") +:+ y)
  /\
  (render r (ast.BinaryExpr X token.LOR Y) = Returns (s, None)
   <-> exists x y,
       render r X = Returns (x, None) /\ render r Y = Returns (y, None)
       /\ s = x +:+ (if r then ", or " else ", and ") +:+ y).
Proof.
  split; simpl;
    destruct (render r X) as [[x [ex|]]|px]; simpl;
    try destruct (render r Y) as [[y [ey|]]|py]; simpl;
    (split; [intros E | intros (x' & y' & Ex & Ey & ->)]);
    try discriminate;
    try (injection E as <-; eauto);
    try (injection Ex as <-; injection Ey as <-; reflexivity).
Qed.

(** C2. The wording of an ordering comparison follows from operator and
    polarity together, so that a comparison under polarity true and its
    negation under polarity false read the same. *)
Theorem C2_ordering_wording (X Y : ast.Expr) :
  let gt := Returns (src X +:+ " is greater than " +:+ src Y, None) in
  let lt := Returns (src X +:+ " is less than " +:+ src Y, None) in
  let ge :=
    Returns (src X +:+ " is greater than or equal to " +:+ src Y, None) in
  let le :=
    Returns (src X +:+ " is less than or equal to " +:+ src Y, None) in
  (render true (ast.BinaryExpr X token.GTR Y) = gt
   /\ render false (ast.BinaryExpr X token.LEQ Y) = gt)
  /\ (render true (ast.BinaryExpr X token.LSS Y) = lt
      /\ render false (ast.BinaryExpr X token.GEQ Y) = lt)
  /\ (render true (ast.BinaryExpr X token.GEQ Y) = ge
      /\ render false (ast.BinaryExpr X token.LSS Y) = ge)
  /\ (render true (ast.BinaryExpr X token.LEQ Y) = le
      /\ render false (ast.BinaryExpr X token.GTR Y) = le).
Proof. repeat split; reflexivity. Qed.

(** Equality against a boolean constant, left side not a call: the
    constant's value is written after "is" or "is not". *)
Lemma equality_with_bool_constant (r : bool) (X Y : ast.Expr)
  (tv : types.TypeAndValue) (b : bool) :
  isExprFunc pkg (Some X) = false ->
  isExprNil pkg (Some Y) = false ->
  isExprBool pkg (Some Y) = true ->
  types.Types (packages.TypesInfo pkg) Y = Some tv ->
  types.IsValue tv = true ->
  types.Value tv = Some (constant.MakeBool b) ->
  render r (ast.BinaryExpr X token.EQL Y)
  = Returns (src X +:+ (if r then " is " else " is not ") +:+ fmt_t b, None)
  /\ render r (ast.BinaryExpr X token.NEQ Y)
    = Returns (src X +:+ (if r then " is not " else " is ") +:+ fmt_t b, None).
Proof.
  intros HX HnY HbY HT HV Hc.
  cbn -[isExprFunc isExprNil isExprBool isExprFuncReturningOnlyError
        mustGetExprBoolValue genericASTExprToString].
  rewrite HX, HnY, HbY. unfold mustGetExprBoolValue.
  rewrite HT, HV, Hc. destruct r; split; reflexivity.
Qed.

(** Equality against a boolean expression without a constant value, left
    side not a call: [mustGetExprBoolValue] panics. *)
Lemma equality_with_bool_not_constant (r : bool) (X Y : ast.Expr)
  (tv : types.TypeAndValue) :
  isExprFunc pkg (Some X) = false ->
  isExprNil pkg (Some Y) = false ->
  isExprBool pkg (Some Y) = true ->
  types.Types (packages.TypesInfo pkg) Y = Some tv ->
  types.Value tv = None ->
  let reason :=
    panic_Sprintf "type %v not found or value is not a bool" [op_Expr Y] in
  render r (ast.BinaryExpr X token.EQL Y) = Panics reason
  /\ render r (ast.BinaryExpr X token.NEQ Y) = Panics reason.
Proof.
  intros HX HnY HbY HT Hc.
  cbn -[isExprFunc isExprNil isExprBool isExprFuncReturningOnlyError
        mustGetExprBoolValue genericASTExprToString].
  rewrite HX, HnY, HbY. unfold mustGetExprBoolValue.
  rewrite HT, Hc. destruct r, (types.IsValue tv); split; reflexivity.
Qed.

(** C6. [errors.Is(errw, err)] reads "errw's error tree contains err"
    under polarity true and "err is not in the error tree of errw" under
    polarity false. *)
Theorem C6_errors_Is_wording (X : ast.Expr) (Sel : option ast.IdentT)
  (errw err : ast.Expr) :
  getIdentSelector pkg Sel = Returns ("errors", "Is", None) ->
  render true (ast.CallExpr (ast.SelectorExpr X Sel) [errw; err])
  = Returns (src errw +:+ "'s error tree contains " +:+ src err, None)
  /\ render false (ast.CallExpr (ast.SelectorExpr X Sel) [errw; err])
    = Returns (src err +:+ " is not in the error tree of " +:+ src errw, None).
Proof.
  intros H. cbn -[getIdentSelector genericASTExprToString].
  rewrite H. split; reflexivity.
Qed.

(** C7. Parentheses and the receive operator are transparent, [!] on a
    call, an identifier, a parenthesized or a unary expression renders
    the operand under the flipped polarity, and [!] on any other
    expression is an error. *)
Theorem C7_wrappers (r : bool) (e : ast.Expr) :
  render r (ast.ParenExpr e) = render r e
  /\ render r (ast.UnaryExpr token.ARROW e) = render r e
  /\ render r (ast.UnaryExpr token.NOT e)
    = if negatable e then render (negb r) e
      else Returns ("", Some (fmt_Errorf "unhandled unary expr operator %T"
                                [op_Expr e])).
Proof. repeat split; destruct e; reflexivity. Qed.

End Rewriter.

(** ** The package-AST cache *)

Section Cache.

Variable h : Host.

Lemma GetPackageAST_hit (st : code.State) (dir : string)
  (m : gmap string packages.Package) :
  code.lookupDir st dir = Some m ->
  code.GetPackageAST h st dir = (inl m, st).
Proof. intros H. unfold code.GetPackageAST. now rewrite H. Qed.

Lemma GetPackageAST_stores (st st1 : code.State) (dir : string)
  (m : gmap string packages.Package) :
  code.GetPackageAST h st dir = (inl m, st1) ->
  code.lookupDir st1 dir = Some m.
Proof.
  unfold code.GetPackageAST.
  destruct (code.lookupDir st dir) as [found|] eqn:E.
  - intros [= <- <-]. exact E.
  - destruct (code.ParsePackageAST h (code.loads st) dir); [|discriminate].
    intros [= <- <-]. unfold code.lookupDir. simpl.
    apply lookup_insert_eq.
Qed.

(** A call never removes or replaces what is cached for a directory. *)
Lemma GetPackageAST_keeps (st : code.State) (dir d : string)
  (m : gmap string packages.Package) :
  code.lookupDir st dir = Some m ->
  code.lookupDir (code.GetPackageAST h st d).2 dir = Some m.
Proof.
  intros H. unfold code.GetPackageAST.
  destruct (code.lookupDir st d) as [found|] eqn:E; [exact H|].
  destruct (code.ParsePackageAST h (code.loads st) d); [|exact H].
  assert (d <> dir) as Hne by (intros ->; congruence).
  unfold code.lookupDir in *. simpl.
  destruct (code._astPkgPathToPkg st) as [cache|]; [|discriminate].
  rewrite E. rewrite !lookup_insert_ne by exact Hne. exact H.
Qed.

Lemma after_keeps (dirs : list string) (st : code.State) (dir : string)
  (m : gmap string packages.Package) :
  code.lookupDir st dir = Some m ->
  code.lookupDir (after h st dirs) dir = Some m.
Proof.
  revert st. induction dirs as [|d dirs IH]; intros st H; [exact H|].
  simpl. apply IH. now apply GetPackageAST_keeps.
Qed.

(** A call on another directory caches nothing for this one. *)
Lemma GetPackageAST_other (st : code.State) (dir d : string) :
  d <> dir ->
  code.lookupDir st dir = None ->
  code.lookupDir (code.GetPackageAST h st d).2 dir = None.
Proof.
  intros Hne H. unfold code.GetPackageAST.
  destruct (code.lookupDir st d) as [found|] eqn:E; [exact H|].
  destruct (code.ParsePackageAST h (code.loads st) d); [|exact H].
  unfold code.lookupDir in *. cbn [code._astPkgPathToPkg snd].
  destruct (code._astPkgPathToPkg st) as [cache|].
  - rewrite E. rewrite !lookup_insert_ne by exact Hne. exact H.
  - rewrite lookup_empty, !lookup_insert_ne by exact Hne. apply lookup_empty.
Qed.

Lemma after_other (dirs : list string) (st : code.State) (dir : string) :
  dir ∉ dirs ->
  code.lookupDir st dir = None ->
  code.lookupDir (after h st dirs) dir = None.
Proof.
  revert st. induction dirs as [|d dirs IH]; intros st Hn H; [exact H|].
  simpl. apply not_elem_of_cons in Hn as [Hd Hn].
  apply IH; [exact Hn|]. apply GetPackageAST_other; [congruence | exact H].
Qed.

(** A call on a directory that is not cached hands it to the loader. *)
Lemma GetPackageAST_miss_loads (st : code.State) (dir : string) :
  code.lookupDir st dir = None ->
  code.loads (code.GetPackageAST h st dir).2 = (code.loads st ++ [dir])%list.
Proof.
  intros H. unfold code.GetPackageAST. rewrite H.
  now destruct (code.ParsePackageAST h (code.loads st) dir).
Qed.

(** C8. Once [GetPackageAST dir] has succeeded, every later call on
    [dir], whatever calls came in between, returns the same mapping and
    leaves the cache and the list of loads as they are.  When the
    directory is not cached and parsing fails, the call returns an error,
    the cache is as before, and a later call on [dir] loads it again. *)
Theorem C8_cache_hits_and_failed_loads (st : code.State) (dir : string) :
  (forall m st1 dirs,
     code.GetPackageAST h st dir = (inl m, st1) ->
     code.GetPackageAST h (after h st1 dirs) dir
     = (inl m, after h st1 dirs))
  /\
  (forall e,
     code.lookupDir st dir = None ->
     code.ParsePackageAST h (code.loads st) dir = inr e ->
     exists err st1,
       code.GetPackageAST h st dir = (inr err, st1)
       /\ code._astPkgPathToPkg st1 = code._astPkgPathToPkg st
       /\ code.loads st1 = (code.loads st ++ [dir])%list
       /\ forall dirs, dir ∉ dirs ->
          code.loads (code.GetPackageAST h (after h st1 dirs) dir).2
          = (code.loads (after h st1 dirs) ++ [dir])%list).
Proof.
  split.
  - intros m st1 dirs H. apply GetPackageAST_hit, after_keeps.
    eapply GetPackageAST_stores, H.
  - intros e Hmiss Hparse. unfold code.GetPackageAST at 1.
    rewrite Hmiss, Hparse. eexists _, _. split; [reflexivity|].
    split; [reflexivity|]. split; [reflexivity|].
    intros dirs Hn. apply GetPackageAST_miss_loads, after_other; [exact Hn|].
    exact Hmiss.
Qed.

End Cache.

(** ** Message assembly *)

Section MessageAssembly.

Variables (h : Host) (st : code.State) (callerStackIndex : Z) (result : bool).

(** C4, as the code has it.  Once the call expression of the caller is
    located: a call with exactly one argument has that argument explained,
    a call with two or more arguments has the second one explained, and a
    call without arguments is refused with an error and no message. *)
Theorem C4_subject_of_the_call (callerFile : string) (callerLine : Z)
  (pkgs : gmap string packages.Package) (st1 : code.State)
  (expr : ast.CallExprT) (file : ast.File) (pkg : packages.Package) :
  runtime_Caller h (callerStackIndex + 1) = Some (callerFile, callerLine) ->
  code.GetPackageAST h st (filepath_Clean h (filepath_Dir h callerFile))
  = (inl pkgs, st1) ->
  code.GetCallerCallExpr h pkgs callerFile callerLine
  = inl (expr, file, pkg) ->
  FromBool h st callerStackIndex result
  = match ast.Args expr with
    | [] =>
        (Returns ("", Some (fmt_Errorf
                              "unexpected call expr arguments number %d"
                              [op_int 0])), st1)
    | [sole] => (argRepr pkg result expr (Returns sole), st1)
    | _ :: second :: _ => (argRepr pkg result expr (Returns second), st1)
    end.
Proof.
  intros HC HP HE. unfold FromBool. rewrite HC, HP, HE.
  destruct (ast.Args expr) as [|a [|b l]]; reflexivity.
Qed.

(** C5, as the code has it.  A failed lookup of the caller, a failed load
    of the package AST and a failed resolution of the call expression
    each return the empty message with an error; a failed rendering of
    the subject returns the source text of the whole call with an
    error. *)
Theorem C5_what_failures_return :
  (runtime_Caller h (callerStackIndex + 1) = None ->
   FromBool h st callerStackIndex result
   = (Returns ("", Some (errors_New "no caller information available")), st))
  /\
  (forall callerFile callerLine err st1,
     runtime_Caller h (callerStackIndex + 1) = Some (callerFile, callerLine) ->
     code.GetPackageAST h st (filepath_Clean h (filepath_Dir h callerFile))
     = (inr err, st1) ->
     FromBool h st callerStackIndex result
     = (Returns ("", Some (fmt_Errorf "unable to get package AST: %v"
                             [op_error err])), st1))
  /\
  (forall callerFile callerLine pkgs err st1,
     runtime_Caller h (callerStackIndex + 1) = Some (callerFile, callerLine) ->
     code.GetPackageAST h st (filepath_Clean h (filepath_Dir h callerFile))
     = (inl pkgs, st1) ->
     code.GetCallerCallExpr h pkgs callerFile callerLine = inr err ->
     FromBool h st callerStackIndex result
     = (Returns ("", Some (fmt_Errorf
                             "unable to get call expr from caller: %v"
                             [op_error err])), st1))
  /\
  (forall callerFile callerLine pkgs expr file pkg st1 arg msg err,
     runtime_Caller h (callerStackIndex + 1) = Some (callerFile, callerLine) ->
     code.GetPackageAST h st (filepath_Clean h (filepath_Dir h callerFile))
     = (inl pkgs, st1) ->
     code.GetCallerCallExpr h pkgs callerFile callerLine
     = inl (expr, file, pkg) ->
     (ast.Args expr = [arg]
      \/ exists first rest, ast.Args expr = first :: arg :: rest) ->
     customizeASTExprRepr pkg result arg = Returns (msg, Some err) ->
     FromBool h st callerStackIndex result
     = (Returns (genericASTExprToString pkg (ast.ofCall expr),
                 Some (fmt_Errorf "unable to get arg repr: %v"
                         [op_error err])), st1)).
Proof.
  unfold FromBool. repeat split.
  - now intros ->.
  - intros ? ? ? ? -> HP. now rewrite HP.
  - intros ? ? ? ? ? -> HP HE. now rewrite HP, HE.
  - intros ? ? ? ? ? ? ? ? ? ? -> HP HE HA HR. rewrite HP, HE.
    destruct HA as [HA | (first & rest & HA)]; rewrite HA;
      cbn -[customizeASTExprRepr genericASTExprToString];
      unfold argRepr; cbn -[customizeASTExprRepr genericASTExprToString];
      now rewrite HR.
Qed.

End MessageAssembly.

(** ** Assert, Require and the caller's message arguments *)

Lemma append_nonempty (s t u : string) :
  t <> "" -> bool_decide (s +:+ t +:+ u = "") = false.
Proof.
  intros Ht. apply bool_decide_eq_false. intros E.
  destruct s; [destruct t; [now apply Ht | discriminate] | discriminate].
Qed.

Section MessageArguments.

Variables (h : Host) (flags : Flags) (st st1 : code.State) (result : bool).
Variables (msg : string) (err : option error).

(** The condition under which [logResult] builds a message. *)
Hypothesis generated :
  (result && (SuccessMessageEnabled flags || _flagEnableSuccessMessage flags))
  || negb result = true.

(** C9. A leading empty string among the message arguments of [Assert]
    and [Require] is dropped: what is logged is the explanation followed
    by what the remaining arguments give, and by nothing at all when none
    remain.  In src/assert.go the two functions hand the remaining
    arguments to [eval]. *)
Theorem C9_leading_empty_string_dropped (rest : list fmt.any) :
  FromBool h st (1 + 1) result = (Returns (msg, err), st1) ->
  let m := test.withMsgAndArgs h msg rest in
  let logged := if negb (bool_decide (m = "")) then [logMsg result m] else [] in
  test.Assert h flags st result (fmt.any_string "" :: rest)
  = (Helper :: Helper :: internalFailure err ++ logged
       ++ (if negb result then [Fail] else []), Returns result, st1)%list
  /\ test.Require h flags st result (fmt.any_string "" :: rest)
     = (Helper :: Helper :: internalFailure err ++ logged
          ++ (if negb result then [FailNow] else []), Returns tt, st1)%list
  /\ test.withMsgAndArgs h msg [] = msg
  /\ assert_go.Assert h flags st result (fmt.any_string "" :: rest)
     = (let '(calls, out, st2) := assert_go.eval h flags st result 1 rest in
        (Helper :: calls, out, st2))
  /\ assert_go.Require h flags st result (fmt.any_string "" :: rest)
     = (let '(calls, out, st2) := assert_go.eval h flags st result 1 rest in
        match out with
        | Panics reason => (Helper :: calls, Panics reason, st2)
        | Returns passed =>
            (Helper :: calls ++ (if negb passed then [FailNow] else []),
             Returns tt, st2)%list
        end).
Proof.
  intros HF m logged.
  assert (test.logResult h flags st result 1 (fmt.any_string "" :: rest)
          = (Helper :: internalFailure err ++ logged, Returns tt, st1)%list)
    as HL.
  { unfold test.logResult. cbn [fmt.is_empty_string].
    rewrite bool_decide_eq_true_2 by reflexivity.
    rewrite generated, HF. reflexivity. }
  repeat split.
  - unfold test.Assert. rewrite HL. cbn [app]. now rewrite <- app_assoc.
  - unfold test.Require. rewrite HL. cbn [app]. now rewrite <- app_assoc.
Qed.

(** C10, as the code has it.  With two or more message arguments of which
    the first is not a string, the logged message ends with the default
    formatting of the whole slice of arguments; a single message argument
    other than the empty string is appended between square brackets
    whatever its type. *)
Theorem C10_arguments_without_format (callerStackIndex : Z) :
  FromBool h st (callerStackIndex + 1) result = (Returns (msg, err), st1) ->
  (forall a b rest,
     fmt.as_string a = None ->
     test.logResult h flags st result callerStackIndex (a :: b :: rest)
     = (Helper :: internalFailure err
          ++ [logMsg result (msg +:+ " " +:+ fmt.v_slice (a :: b :: rest))],
        Returns tt, st1)%list)
  /\
  (forall a,
     fmt.is_empty_string a = false ->
     test.logResult h flags st result callerStackIndex [a]
     = (Helper :: internalFailure err
          ++ [logMsg result (msg +:+ " [" +:+ fmt.v a +:+ "]")],
        Returns tt, st1)%list).
Proof.
  intros HF. split.
  - intros a b rest Ha. unfold test.logResult.
    replace (fmt.is_empty_string a) with false by now destruct a.
    rewrite generated, HF. cbn [test.withMsgAndArgs]. rewrite Ha.
    rewrite (append_nonempty msg " " (fmt.v_slice (a :: b :: rest)))
      by discriminate.
    reflexivity.
  - intros a Ha. unfold test.logResult. rewrite Ha, generated, HF.
    cbn [test.withMsgAndArgs].
    rewrite (append_nonempty msg " [" (fmt.v a +:+ "]")) by discriminate.
    reflexivity.
Qed.

End MessageArguments.

(** ** The functions run on the test package *)

Section Runs.

Import sample.

Abbreviation b1_eq_b2 := (ast.BinaryExpr (id "b1") token.EQL (id "b2")).
Abbreviation err_eq_nil := (ast.BinaryExpr (id "err") token.EQL (id "nil")).

(** The cache once the test package is loaded. *)
Abbreviation loaded := (code.GetPackageAST (host 1 10) empty "/src/example").2.
Abbreviation pkgs := (fold_left code.visit [pkg] (∅ : gmap string packages.Package)).

(** [i && j] under polarity true, as in the repository's test AND_true. *)
Lemma C1_witness_and_true :
  customizeASTExprRepr pkg true (ast.BinaryExpr (id "i") token.LAND (id "j"))
  = Returns ("var i is true, and var j is true", None).
Proof.
  destruct (C1_logical_operators_join_operands pkg true (id "i") (id "j")
              "var i is true, and var j is true") as [[_ H] _].
  apply H. exists "var i is true", "var j is true".
  repeat split; reflexivity.
Defined.

(** C3. Two boolean variables compared with [==]: the rewriter panics
    where the repository's test EQ-not-func-compared-to-bool-not-constant
    expects the generic "b1 is equal to b2". *)
Theorem C3_bool_variables_compared_panics :
  customizeASTExprRepr pkg true b1_eq_b2
  = Panics (panic_Sprintf "type %v not found or value is not a bool"
              [op_Expr (id "b2")])
  /\ customizeASTExprRepr pkg true b1_eq_b2
     <> Returns ("b1 is equal to b2", None).
Proof. split; [reflexivity | discriminate]. Qed.

(** The constant case of the same rule, as in the repository's test
    EQ-not-func-compared-to-bool_false-constant. *)
Example equality_with_true_under_false :
  customizeASTExprRepr pkg false (ast.BinaryExpr (id "b") token.EQL (id "true"))
  = Returns ("b is not true", None).
Proof. reflexivity. Qed.

(** Line 12 of the test file starts with the call [check()], which has no
    argument: [FromBool] refuses it and explains no subject at all. *)
Lemma C4_counterexample_no_argument :
  exists expr file,
    code.GetPackageAST (host 1 12) empty "/src/example" = (inl pkgs, loaded)
    /\ code.GetCallerCallExpr (host 1 12) pkgs file_go 12
       = inl (expr, file, pkg)
    /\ ast.Args expr = []
    /\ (FromBool (host 1 12) empty 0 true).1
       = Returns ("", Some (fmt_Errorf
                              "unexpected call expr arguments number %d"
                              [op_int 0]))
    /\ forall subject,
       (FromBool (host 1 12) empty 0 true).1
       <> argRepr pkg true expr (Returns subject).
Proof.
  exists {| ast.Fun := id "check"; ast.Args := [] |}, sample.file.
  split; [vm_compute; reflexivity|].
  split; [vm_compute; reflexivity|].
  split; [reflexivity|].
  split; [vm_compute; reflexivity|].
  intros subject. replace (FromBool (host 1 12) empty 0 true).1
    with (Returns (A := string * option error)
            ("", Some (fmt_Errorf "unexpected call expr arguments number %d"
                         [op_int 0])))
    by (vm_compute; reflexivity).
  unfold argRepr. cbn -[customizeASTExprRepr genericASTExprToString].
  destruct (customizeASTExprRepr pkg true subject) as [[m [e|]]|p];
    discriminate.
Qed.

(** Line 10 of the test file, [test.Assert(t, err == nil)]: the second
    argument is explained. *)
Lemma C4_witness_second_argument :
  (FromBool (host 1 10) empty 0 true).1 = Returns ("err is nil", None).
Proof.
  rewrite (C4_subject_of_the_call (host 1 10) empty 0 true file_go 10
             pkgs loaded
             {| ast.Fun := sel "test" "Assert";
                ast.Args := [id "t"; err_eq_nil] |}
             sample.file pkg
             ltac:(vm_compute; reflexivity) ltac:(vm_compute; reflexivity)
             ltac:(vm_compute; reflexivity)).
  reflexivity.
Defined.

(** No frame at depth 101, as in the repository's test of [FromBool] with
    index 100: the message is empty. *)
Lemma C5_counterexample_empty_message :
  FromBool (host 1 10) empty 100 true
  = (Returns ("", Some (errors_New "no caller information available")), empty)
  /\ (FromBool (host 1 10) empty 100 true).1
     <> Returns ("test.Assert(t, err == nil)",
                 Some (errors_New "no caller information available")).
Proof. split; [reflexivity | discriminate]. Qed.

(** The four failures on the test package: no frame at depth 101; a
    caller in a directory that does not load; line 99, which has no call;
    line 13, whose subject [flags[0]] is not rendered. *)
Lemma C5_witness_failures :
  (FromBool (host 1 10) empty 100 true).1
  = Returns ("", Some (errors_New "no caller information available"))
  /\ (FromBool (hostOf "/tmp/other_test.go" 1 3) empty 0 false).1
     = Returns ("", Some (fmt_Errorf "unable to get package AST: %v"
         [op_error (fmt_Errorf "unable to parse caller package %q: %w"
            [op_string ".";
             op_error (fmt_Errorf "unable to load packages: %w"
                         [op_error (errors_New "no such directory")])])]))
  /\ (FromBool (host 1 99) empty 0 false).1
     = Returns ("", Some (fmt_Errorf "unable to get call expr from caller: %v"
         [op_error (fmt_Errorf "unable to get call expression: %v"
            [op_error (errors_New "ast inspection did not return a node")])]))
  /\ (FromBool (host 1 13) empty 0 false).1
     = Returns ("test.Assert(t, flags[0])",
                Some (fmt_Errorf "unable to get arg repr: %v"
                  [op_error (fmt_Errorf "unhandled expr type %T"
                     [op_Expr (ast.IndexExpr (id "flags")
                                 (ast.BasicLit token.INT "0"))])])).
Proof.
  split; [|split; [|split]].
  - destruct (C5_what_failures_return (host 1 10) empty 100 true)
      as (H & _). rewrite H; reflexivity.
  - destruct (C5_what_failures_return (hostOf "/tmp/other_test.go" 1 3)
                empty 0 false) as (_ & H & _).
    erewrite H; [reflexivity | reflexivity | vm_compute; reflexivity].
  - destruct (C5_what_failures_return (host 1 99) empty 0 false)
      as (_ & _ & H & _).
    erewrite (H file_go 99%Z pkgs _ loaded);
      [reflexivity | reflexivity | vm_compute; reflexivity
       | vm_compute; reflexivity].
  - destruct (C5_what_failures_return (host 1 13) empty 0 false)
      as (_ & _ & _ & H).
    erewrite (H file_go 13%Z pkgs
                {| ast.Fun := sel "test" "Assert";
                   ast.Args := [id "t"; ast.IndexExpr (id "flags")
                                          (ast.BasicLit token.INT "0")] |}
                sample.file pkg loaded
                (ast.IndexExpr (id "flags") (ast.BasicLit token.INT "0")));
      [reflexivity | reflexivity | vm_compute; reflexivity
       | vm_compute; reflexivity | right; eexists _, _; reflexivity
       | reflexivity].
Defined.

(** [errors.Is(errw, err)] under both polarities. *)
Lemma C6_witness_errors_Is :
  customizeASTExprRepr pkg true
    (ast.CallExpr (sel "errors" "Is") [id "errw"; id "err"])
  = Returns ("errw's error tree contains err", None)
  /\ customizeASTExprRepr pkg false
       (ast.CallExpr (sel "errors" "Is") [id "errw"; id "err"])
     = Returns ("err is not in the error tree of errw", None).
Proof.
  exact (C6_errors_Is_wording pkg (id "errors")
           (Some {| ast.NamePos := 0%Z; ast.Name := "Is" |})
           (id "errw") (id "err") eq_refl).
Defined.

(** [!(21 > 42)] under polarity true, as in the repository's test
    NOT-ParentExpr, and [<-b] as in ARROW-bool. *)
Example negated_parenthesized_comparison :
  customizeASTExprRepr pkg true
    (ast.UnaryExpr token.NOT
       (ast.ParenExpr (ast.BinaryExpr (ast.BasicLit token.INT "21") token.GTR
                         (ast.BasicLit token.INT "42"))))
  = Returns ("21 is less than or equal to 42", None)
  /\ customizeASTExprRepr pkg true (ast.UnaryExpr token.ARROW (id "b"))
     = Returns ("var b is true", None).
Proof. split; reflexivity. Qed.

(** The test package is loaded once and served from the cache afterwards;
    a directory that does not load is loaded again on the next call. *)
Lemma C8_witness_cache :
  code.GetPackageAST (host 1 10)
    (after (host 1 10) loaded ["/nowhere"; "/src/example"]) "/src/example"
  = (inl pkgs, after (host 1 10) loaded ["/nowhere"; "/src/example"])
  /\ code.loads (after (host 1 10) loaded ["/nowhere"; "/src/example"])
     = ["/src/example"; "/nowhere"]
  /\ code.loads
       (code.GetPackageAST (host 1 10)
          (code.GetPackageAST (host 1 10) empty "/nowhere").2 "/nowhere").2
     = ["/nowhere"; "/nowhere"].
Proof.
  split; [|split].
  - destruct (C8_cache_hits_and_failed_loads (host 1 10) empty "/src/example")
      as [H _].
    apply H. vm_compute. reflexivity.
  - vm_compute. reflexivity.
  - destruct (C8_cache_hits_and_failed_loads (host 1 10) empty "/nowhere")
      as [_ H].
    destruct (H (fmt_Errorf "unable to load packages: %w"
                   [op_error (errors_New "no such directory")])
                eq_refl eq_refl) as (err & st1 & H1 & _ & H3 & H4).
    rewrite H1. cbn [snd].
    specialize (H4 [] (not_elem_of_nil _)). unfold after in H4.
    cbn [fold_left] in H4. rewrite H4, H3. reflexivity.
Defined.

(** The repository's test "empty message is skipped", through [Assert]. *)
Lemma C9_witness_empty_message_skipped :
  test.Assert (host 3 14) quiet empty false
    [fmt.any_string ""; fmt.any_string "%s"; fmt.any_string "hello"]
  = ([Helper; Helper; Logf "Error: %s" [op_string "literal false [hello]"];
      Fail], Returns false, loaded)
  /\ test.Assert (host 3 14) quiet empty false [fmt.any_string ""]
     = ([Helper; Helper; Logf "Error: %s" [op_string "literal false"]; Fail],
        Returns false, loaded).
Proof.
  split.
  - destruct (C9_leading_empty_string_dropped (host 3 14) quiet empty loaded
                false "literal false" None eq_refl
                [fmt.any_string "%s"; fmt.any_string "hello"]
                ltac:(vm_compute; reflexivity)) as [H _].
    rewrite H. reflexivity.
  - destruct (C9_leading_empty_string_dropped (host 3 14) quiet empty loaded
                false "literal false" None eq_refl []
                ltac:(vm_compute; reflexivity)) as [H _].
    rewrite H. reflexivity.
Defined.

(** One message argument, the empty string: nothing is put in brackets. *)
Lemma C10_counterexample_single_empty_string :
  (test.logResult (host 2 14) quiet empty false 0 [fmt.any_string ""]).1.1
  = [Helper; Logf "Error: %s" [op_string "literal false"]]
  /\ (test.logResult (host 2 14) quiet empty false 0 [fmt.any_string ""]).1.1
     <> [Helper;
         Logf "Error: %s"
           [op_string ("literal false [" +:+ fmt.v (fmt.any_string "")
                       +:+ "]")]].
Proof. split; [vm_compute; reflexivity | vm_compute; discriminate]. Qed.

(** The repository's test "first message is not a string", and a single
    argument that is not a string. *)
Lemma C10_witness_first_not_a_string :
  test.logResult (host 2 14) quiet empty false 0
    [fmt.any_int 42; fmt.any_string "hello"]
  = ([Helper; Logf "Error: %s" [op_string "literal false [42 hello]"]],
     Returns tt, loaded)
  /\ test.logResult (host 2 14) quiet empty false 0 [fmt.any_int 42]
     = ([Helper; Logf "Error: %s" [op_string "literal false [42]"]],
        Returns tt, loaded).
Proof.
  destruct (C10_arguments_without_format (host 2 14) quiet empty loaded
              false "literal false" None eq_refl 0
              ltac:(vm_compute; reflexivity)) as [H2 H1].
  split.
  - rewrite H2 by reflexivity. reflexivity.
  - rewrite H1 by reflexivity. reflexivity.
Defined.

End Runs.

(** * Further properties *)

(** ** The rewriter: what it returns, and how its rules compose *)

Lemma append_ne_r (s t : string) : t <> "" -> s +:+ t <> "".
Proof. intros H. destruct s; [exact H | discriminate]. Qed.

Lemma append_ne_l (s t : string) : s <> "" -> s +:+ t <> "".
Proof. intros H. destruct s; [contradiction | discriminate]. Qed.

Ltac nonempty :=
  solve [ repeat first
            [ discriminate
            | apply append_ne_l; discriminate
            | match goal with
              | |- context [if ?b then _ else _] => destruct b
              end
            | apply append_ne_l; solve [nonempty]
            | apply append_ne_r ] ].

Ltac keep H :=
  cbn -[isExprFunc isExprNil isExprBool isExprFuncReturningOnlyError
        mustGetExprBoolValue genericASTExprToString getIdentSelector
        callRepr customizeASTExprRepr String.append] in H.

Ltac step H :=
  match type of H with
  | context [mbind _ ?x] => destruct x as [?|?] eqn:?; keep H
  | context [match ?x with _ => _ end] => destruct x eqn:?; keep H
  end.

Ltac callRepr_cases H :=
  repeat (match type of H with
          | context [if ?b then _ else _] => destruct b
          | context [Args_at ?a ?i] => destruct (Args_at a i)
          end; cbn -[genericASTExprToString String.append] in H).

Section RewriterResults.

Variable pkg : packages.Package.

Abbreviation render' := (customizeASTExprRepr pkg).
Abbreviation src' := (genericASTExprToString pkg).

Lemma callRepr_error_empty r e args p t m err :
  callRepr pkg r e args p t = Returns (m, Some err) -> m = "".
Proof. unfold callRepr. intros H. callRepr_cases H; discriminate. Qed.

Lemma callRepr_ok_nonempty r e args p t m :
  callRepr pkg r e args p t = Returns (m, None) -> m <> "".
Proof.
  unfold callRepr. intros H. callRepr_cases H;
    try discriminate; injection H as <-; nonempty.
Qed.

(** X1. Whenever the rewriter returns an error, the message that comes
    with it is empty. *)
Theorem X1_error_comes_with_empty_message (e : ast.Expr) (r : bool)
  (m : string) (err : error) :
  render' r e = Returns (m, Some err) -> m = "".
Proof.
  revert r m err. induction e; intros r m err H;
    cbn -[isExprFunc isExprNil isExprBool isExprFuncReturningOnlyError
          mustGetExprBoolValue genericASTExprToString getIdentSelector
          callRepr String.append] in H;
    unfold fails in H;
    repeat step H;
    try discriminate;
    try (injection H as <- _; reflexivity);
    eauto using callRepr_error_empty.
Qed.

Lemma render_ok_nonempty (e : ast.Expr) (r : bool) (m : string) :
  render' r e = Returns (m, None) -> m <> "".
Proof.
  revert r m. induction e; intros r m H;
    cbn -[isExprFunc isExprNil isExprBool isExprFuncReturningOnlyError
          mustGetExprBoolValue genericASTExprToString getIdentSelector
          callRepr String.append] in H;
    unfold fails in H;
    repeat step H;
    try discriminate;
    try (injection H as <-; nonempty);
    eauto using callRepr_ok_nonempty.
Qed.

(** X2. A rendering returned without an error is never the empty
    string. *)
Theorem X2_rendering_is_not_empty (e : ast.Expr) (r : bool) (m : string) :
  render' r e = Returns (m, None) -> m <> "".
Proof. apply render_ok_nonempty. Qed.

(** X4. Two negations in a row cancel: [!!e] is rendered as [e] under the
    same polarity when [e] is a call, an identifier, a parenthesized or a
    unary expression, and is an error otherwise. *)
Theorem X4_double_negation (r : bool) (e : ast.Expr) :
  render' r (ast.UnaryExpr token.NOT (ast.UnaryExpr token.NOT e))
  = if negatable e then render' r e
    else Returns ("", Some (fmt_Errorf "unhandled unary expr operator %T"
                              [op_Expr e])).
Proof.
  change (render' r (ast.UnaryExpr token.NOT (ast.UnaryExpr token.NOT e)))
    with (render' (negb r) (ast.UnaryExpr token.NOT e)).
  destruct e; cbn [negatable]; try reflexivity;
    change (render' (negb r) (ast.UnaryExpr token.NOT ?x))
      with (render' (negb (negb r)) x);
    now rewrite negb_involutive.
Qed.

(** X5. A negated, parenthesized ordering comparison reads as the
    complementary comparison: [!(x > y)] as [x <= y], [!(x <= y)] as
    [x > y], [!(x < y)] as [x >= y] and [!(x >= y)] as [x < y], under
    either polarity. *)
Theorem X5_negated_ordering_is_the_complement (r : bool) (X Y : ast.Expr) :
  let no e := ast.UnaryExpr token.NOT (ast.ParenExpr e) in
  render' r (no (ast.BinaryExpr X token.GTR Y))
  = render' r (ast.BinaryExpr X token.LEQ Y)
  /\ render' r (no (ast.BinaryExpr X token.LEQ Y))
     = render' r (ast.BinaryExpr X token.GTR Y)
  /\ render' r (no (ast.BinaryExpr X token.LSS Y))
     = render' r (ast.BinaryExpr X token.GEQ Y)
  /\ render' r (no (ast.BinaryExpr X token.GEQ Y))
     = render' r (ast.BinaryExpr X token.LSS Y).
Proof. destruct r; repeat split; reflexivity. Qed.

(** X6. Except for a call compared with a boolean, a negated,
    parenthesized [==] reads as [!=] and a negated [!=] as [==]. *)
Theorem X6_negated_equality_is_inequality (r : bool) (X Y : ast.Expr) :
  isExprFunc pkg (Some X) && isExprBool pkg (Some Y)
  && negb (isExprNil pkg (Some Y)) = false ->
  render' r (ast.UnaryExpr token.NOT
               (ast.ParenExpr (ast.BinaryExpr X token.EQL Y)))
  = render' r (ast.BinaryExpr X token.NEQ Y)
  /\ render' r (ast.UnaryExpr token.NOT
                  (ast.ParenExpr (ast.BinaryExpr X token.NEQ Y)))
     = render' r (ast.BinaryExpr X token.EQL Y).
Proof.
  intros H.
  cbn -[isExprFunc isExprNil isExprBool isExprFuncReturningOnlyError
        mustGetExprBoolValue genericASTExprToString String.append].
  destruct (isExprFunc pkg (Some X)), (isExprBool pkg (Some Y)),
    (isExprNil pkg (Some Y)),
    (isExprFuncReturningOnlyError pkg (Some X)), r;
    try discriminate H; split; reflexivity.
Qed.

(** X7. A call compared with a boolean is described by the polarity
    alone: [f() == b] and [f() != b] both read "f() returned true" under
    polarity true and "f() returned false" under polarity false, whatever
    [b] is. *)
Theorem X7_call_compared_with_boolean (r : bool) (X Y : ast.Expr) :
  isExprFunc pkg (Some X) = true ->
  isExprNil pkg (Some Y) = false ->
  isExprBool pkg (Some Y) = true ->
  render' r (ast.BinaryExpr X token.EQL Y)
  = Returns (src' X +:+ " returned " +:+ fmt_t r, None)
  /\ render' r (ast.BinaryExpr X token.NEQ Y)
     = Returns (src' X +:+ " returned " +:+ fmt_t r, None).
Proof.
  intros HX HnY HbY.
  cbn -[isExprFunc isExprNil isExprBool isExprFuncReturningOnlyError
        mustGetExprBoolValue genericASTExprToString String.append].
  rewrite HX, HnY, HbY.
  destruct (isExprFuncReturningOnlyError pkg (Some X)), r;
    split; reflexivity.
Qed.

(** X8. A comparison with [nil] never fails: [x == nil] under polarity
    [r] and [x != nil] under the opposite polarity get the same wording,
    which says "returned no error" or "returned an error" for a call that
    returns only an error, "returned nil" or "returned not nil" for
    another call, and "is nil" or "is not nil" otherwise. *)
Theorem X8_comparison_with_nil (r : bool) (X Y : ast.Expr) :
  isExprNil pkg (Some Y) = true ->
  render' r (ast.BinaryExpr X token.EQL Y)
  = Returns (src' X +:+ nilWording (isExprFunc pkg (Some X))
                          (isExprFuncReturningOnlyError pkg (Some X)) r, None)
  /\ render' r (ast.BinaryExpr X token.NEQ Y)
     = Returns (src' X +:+ nilWording (isExprFunc pkg (Some X))
                             (isExprFuncReturningOnlyError pkg (Some X))
                             (negb r), None).
Proof.
  intros HnY.
  cbn -[isExprFunc isExprNil isExprBool isExprFuncReturningOnlyError
        mustGetExprBoolValue genericASTExprToString String.append].
  rewrite HnY. unfold nilWording.
  destruct (isExprFunc pkg (Some X)),
    (isExprFuncReturningOnlyError pkg (Some X)),
    (isExprBool pkg (Some Y)), r; split; reflexivity.
Qed.

(** X9. A call whose function name resolves to an object without a
    package, as the types and functions of the universe are, makes the
    rewriter panic on a nil dereference; so does [bool(ok)]. *)
Theorem X9_universe_callee_panics (r : bool) (fn : ast.IdentT)
  (X : ast.Expr) (args : list ast.Expr) (obj : types.Object) :
  types.ObjectOf (packages.TypesInfo pkg) fn = Some obj ->
  types.Pkg obj = None ->
  render' r (ast.CallExpr (ast.Ident fn) args) = Panics nil_dereference
  /\ render' r (ast.CallExpr (ast.SelectorExpr X (Some fn)) args)
     = Panics nil_dereference.
Proof.
  intros HO HP. cbn -[genericASTExprToString callRepr String.append].
  rewrite HO, HP. split; reflexivity.
Qed.

(** X10. The membership and equality helpers of the standard library have
    their own wording: [slices.Contains] and [strings.Contains] read
    "a contains b" or "a does not contain b"; [bytes.Equal], [maps.Equal],
    [reflect.DeepEqual] and [slices.Equal] read "a is equal to b" or
    "a is not equal to b". *)
Theorem X10_known_helpers (r : bool) (X : ast.Expr) (Sel : option ast.IdentT)
  (a b : ast.Expr) (more : list ast.Expr) (p t : string) :
  getIdentSelector pkg Sel = Returns (p, t, None) ->
  ((p, t) ∈ [("slices", "Contains"); ("strings", "Contains")] ->
   render' r (ast.CallExpr (ast.SelectorExpr X Sel) (a :: b :: more))
   = Returns (src' a +:+ (if r then " contains " else " does not contain ")
              +:+ src' b, None))
  /\
  ((p, t) ∈ [("bytes", "Equal"); ("maps", "Equal"); ("reflect", "DeepEqual");
             ("slices", "Equal")] ->
   render' r (ast.CallExpr (ast.SelectorExpr X Sel) (a :: b :: more))
   = Returns (src' a +:+ (if r then " is equal to " else " is not equal to ")
              +:+ src' b, None)).
Proof.
  intros HS. cbn -[getIdentSelector genericASTExprToString String.append callRepr].
  rewrite HS. cbn -[genericASTExprToString String.append callRepr].
  split; intros Hin; repeat (apply elem_of_cons in Hin as [[= -> ->]|Hin]);
    try (now apply elem_of_nil in Hin); destruct r; reflexivity.
Qed.

End RewriterResults.

(** ** The caller-site resolver *)

Section Resolver.

Variables (fset : packages.FileSet) (line : Z).

Lemma inspect_found (l : list ast.Node) (c : ast.CallExprT) :
  fold_left (code.inspectNode fset line) l (Some c) = Some c.
Proof. induction l as [|n l IH]; [reflexivity | exact IH]. Qed.

Lemma inspect_skip (n : ast.Node) :
  callOnLine fset line n = false ->
  code.inspectNode fset line None n = None.
Proof.
  unfold callOnLine, code.inspectNode.
  destruct (token.Line (packages.Position fset (ast.Node_Pos n)) =? line)%Z;
    [|reflexivity].
  destruct n as [p e|p]; [destruct e|]; cbn; congruence.
Qed.

Lemma inspect_take (n : ast.Node) :
  callOnLine fset line n = true ->
  exists p c,
    n = ast.ExprNode p (ast.ofCall c)
    /\ token.Line (packages.Position fset p) = line
    /\ code.inspectNode fset line None n = Some c.
Proof.
  unfold callOnLine, code.inspectNode.
  destruct (token.Line (packages.Position fset (ast.Node_Pos n)) =? line)%Z
    eqn:E; [|discriminate].
  destruct n as [p e|p]; [destruct e|]; cbn; try discriminate.
  intros _. eexists p, {| ast.Fun := _; ast.Args := _ |}.
  repeat split. now apply Z.eqb_eq.
Qed.

Lemma inspect_first (l : list ast.Node) :
  match fold_left (code.inspectNode fset line) l None with
  | Some c =>
      exists pre p post,
        l = (pre ++ ast.ExprNode p (ast.ofCall c) :: post)%list
        /\ token.Line (packages.Position fset p) = line
        /\ forallb (fun n => negb (callOnLine fset line n)) pre = true
  | None => forallb (fun n => negb (callOnLine fset line n)) l = true
  end.
Proof.
  induction l as [|n l IH]; [reflexivity|].
  cbn [fold_left forallb].
  destruct (callOnLine fset line n) eqn:E.
  - apply inspect_take in E as (p & c & -> & Hp & ->).
    rewrite inspect_found. now exists [], p, l.
  - rewrite (inspect_skip n E).
    destruct (fold_left (code.inspectNode fset line) l None) as [c|];
      [|exact IH].
    destruct IH as (pre & q & post & -> & Hq & Hpre).
    exists (n :: pre), q, post. cbn [forallb]. rewrite E. now repeat split.
Qed.

(** X11. [getASTCallExprAtLine] returns the first call expression, in the
    order of the traversal, that starts on the line; it fails exactly
    when no call expression starts there. *)
Theorem X11_first_call_on_the_line (file : ast.File) :
  match code.getASTCallExprAtLine fset file line with
  | inl c =>
      exists pre p post,
        ast.Inspect file = (pre ++ ast.ExprNode p (ast.ofCall c) :: post)%list
        /\ token.Line (packages.Position fset p) = line
        /\ forallb (fun n => negb (callOnLine fset line n)) pre = true
  | inr err =>
      err = errors_New "ast inspection did not return a node"
      /\ forallb (fun n => negb (callOnLine fset line n)) (ast.Inspect file)
         = true
  end.
Proof.
  unfold code.getASTCallExprAtLine.
  pose proof (inspect_first (ast.Inspect file)) as H.
  destruct (fold_left (code.inspectNode fset line) (ast.Inspect file) None);
    [exact H | now split].
Qed.

End Resolver.

Section ResolverInPackages.

Variables (h : Host) (pkgs : gmap string packages.Package).
Variables (callerFile : string) (callerLine : Z).

(** The files of the packages, in the order in which they are tried. *)
Abbreviation candidates :=
  (flat_map (fun pkg => map (pair pkg) (packages.Syntax pkg))
     (range_order h pkgs)).




End ResolverInPackages.

(** ** Loading packages *)



Section Loading.

Import packages.







Variables (h : Host) (earlier : list string) (pkgDir : string).

(** X14. A package with a compile error makes the whole load fail:
    [ParsePackageAST] returns a mapping only when [packages.Load]
    succeeded and none of its packages has an error. *)
Theorem X14_no_mapping_with_errors (m : gmap string Package) :
  code.ParsePackageAST h earlier pkgDir = inl m ->
  exists pkgs,
    packages_Load h earlier pkgDir = inl pkgs
    /\ Forall (fun p => Errors p = []) pkgs
    /\ m = fold_left code.visit pkgs ∅.
Proof.
  unfold code.ParsePackageAST.
  destruct (packages_Load h earlier pkgDir) as [pkgs|err]; [|discriminate].
  destruct (0 <? length (flat_map Errors pkgs))%nat eqn:E; [discriminate|].
  intros [= <-]. exists pkgs. repeat split.
  apply Nat.ltb_ge in E. apply Forall_forall. intros p Hp.
  destruct (Errors p) as [|e es] eqn:Ep; [reflexivity|]. exfalso.
  assert (In e (flat_map Errors pkgs)) as Hin.
  { apply in_flat_map. exists p. split; [now apply list_elem_of_In|].
    rewrite Ep. now left. }
  destruct (flat_map Errors pkgs); [contradiction | cbn in E; lia].
Qed.


(** X16. [InitPackageASTCache] panics exactly when the package cannot be
    loaded; once it has returned, [GetPackageAST] on that directory
    succeeds from the cache, without a load, however many other calls
    come first. *)
Theorem X16_init_warms_the_cache (st : code.State) :
  match code.InitPackageASTCache h st pkgDir with
  | (Returns _, st1) =>
      (exists m, code.GetPackageAST h st pkgDir = (inl m, st1))
      /\ forall dirs,
           exists m,
             code.GetPackageAST h (after h st1 dirs) pkgDir
             = (inl m, after h st1 dirs)
  | (Panics reason, st1) =>
      exists err,
        code.GetPackageAST h st pkgDir = (inr err, st1)
        /\ reason = panic_error
                      (fmt_Errorf "fail to init package cache: %v"
                         [op_error err])
  end.
Proof.
  unfold code.InitPackageASTCache.
  destruct (code.GetPackageAST h st pkgDir) as [[m|err] st1] eqn:E.
  - split; [now exists m|]. intros dirs. exists m.
    apply GetPackageAST_hit, after_keeps.
    eapply GetPackageAST_stores, E.
  - now exists err.
Qed.

End Loading.

(** ** Message assembly and the cache *)

Section Assembly.

Variables (h : Host) (st : code.State) (callerStackIndex : Z) (result : bool).

Lemma argRepr_ok_nonempty (pkg : packages.Package) (expr : ast.CallExprT)
  (arg : outcome ast.Expr) (m : string) :
  argRepr pkg result expr arg = Returns (m, None) -> m <> "".
Proof.
  unfold argRepr. destruct arg as [a|]; [|discriminate].
  cbn -[customizeASTExprRepr genericASTExprToString].
  destruct (customizeASTExprRepr pkg result a) as [[x [e|]]|] eqn:E;
    try discriminate.
  intros [= <-]. eapply render_ok_nonempty, E.
Qed.

Lemma FromBool_ok_nonempty (m : string) (st1 : code.State) :
  FromBool h st callerStackIndex result = (Returns (m, None), st1) ->
  m <> "".
Proof.
  unfold FromBool.
  destruct (runtime_Caller h (callerStackIndex + 1)) as [[f l]|];
    [|discriminate].
  destruct (code.GetPackageAST h st _) as [[pkgs|err] st'];
    [|discriminate].
  destruct (code.GetCallerCallExpr h pkgs f l) as [[[expr file] pkg]|err];
    [|discriminate].
  destruct (length (ast.Args expr) =? 1)%nat;
    [|destruct (2 <=? length (ast.Args expr))%nat; [|discriminate]];
    intros [= H _]; eapply argRepr_ok_nonempty, H.
Qed.

(** X3. [FromBool] never returns an empty message without an error. *)
Theorem X3_no_empty_message_without_error (m : string) (st1 : code.State) :
  FromBool h st callerStackIndex result = (Returns (m, None), st1) ->
  m <> "".
Proof. apply FromBool_ok_nonempty. Qed.

End Assembly.

(** X17. Two assertions in the same directory parse it once: after a
    [FromBool] that loaded the caller's package, a [FromBool] for a
    caller in the same directory leaves the cache and the list of loads
    unchanged, from whichever stack and for whichever result it runs. *)
Theorem X17_second_explanation_does_not_load (h h' : Host) (st : code.State)
  (i i' : Z) (r r' : bool) (f f' : string) (l l' : Z)
  (m : gmap string packages.Package) (st1 : code.State) :
  runtime_Caller h (i + 1) = Some (f, l) ->
  runtime_Caller h' (i' + 1) = Some (f', l') ->
  filepath_Clean h' (filepath_Dir h' f') = filepath_Clean h (filepath_Dir h f) ->
  code.GetPackageAST h st (filepath_Clean h (filepath_Dir h f)) = (inl m, st1) ->
  (FromBool h st i r).2 = st1
  /\ (FromBool h' (FromBool h st i r).2 i' r').2 = st1.
Proof.
  intros HC HC' HD HG.
  assert ((FromBool h st i r).2 = st1) as H1.
  { unfold FromBool. rewrite HC, HG.
    destruct (code.GetCallerCallExpr h m f l) as [[[expr file] pkg]|err];
      [|reflexivity].
    destruct (length (ast.Args expr) =? 1)%nat;
      [|destruct (2 <=? length (ast.Args expr))%nat]; reflexivity. }
  split; [exact H1|]. rewrite H1.
  assert (code.GetPackageAST h' st1 (filepath_Clean h (filepath_Dir h f))
          = (inl m, st1)) as HG'.
  { apply GetPackageAST_hit. eapply GetPackageAST_stores, HG. }
  unfold FromBool. rewrite HC', HD, HG'.
  destruct (code.GetCallerCallExpr h' m f' l') as [[[expr file] pkg]|err];
    [|reflexivity].
  destruct (length (ast.Args expr) =? 1)%nat;
    [|destruct (2 <=? length (ast.Args expr))%nat]; reflexivity.
Qed.

(** ** Assert and Require on the test *)

Section OnTheTest.

Variables (h : Host) (flags : Flags) (st : code.State).

Lemma withMsgAndArgs_nonempty (msg : string) (l : list fmt.any) :
  msg <> "" -> test.withMsgAndArgs h msg l <> "".
Proof.
  intros H. destruct l as [|a [|b l]]; cbn [test.withMsgAndArgs];
    [exact H | now apply append_ne_l |].
  destruct (fmt.as_string a); now apply append_ne_l.
Qed.

(** [logResult] only marks itself as a helper and logs. *)
Lemma logResult_calls (result : bool) (i : Z) (args : list fmt.any) :
  Forall (fun c => c = Helper \/ exists format a, c = Logf format a)
    (test.logResult h flags st result i args).1.1.
Proof.
  unfold test.logResult.
  destruct (_ || negb result); [|repeat constructor].
  destruct (FromBool h st (i + 1) result) as [[[msg err]|reason] st1];
    [|repeat constructor].
  cbn [fst]. constructor; [now left|]. apply Forall_app. split.
  - destruct err; cbn [internalFailure]; [|constructor].
    constructor; [right; eauto | constructor].
  - destruct (negb _); [|constructor].
    constructor; [|constructor]. right. unfold logMsg.
    destruct result; eauto.
Qed.

Lemma no_failure_in (calls : list TCall) :
  Forall (fun c => c = Helper \/ exists format a, c = Logf format a) calls ->
  (Fail ∉ calls) /\ (FailNow ∉ calls).
Proof.
  intros H. split; intros Hin;
    (eapply Forall_forall in H; [|exact Hin]);
    destruct H as [H|(f & a & H)]; discriminate.
Qed.

Lemma Assert_shape (result : bool) (args : list fmt.any) :
  match test.Assert h flags st result args with
  | (calls, Returns b, _) =>
      b = result
      /\ exists before,
           calls = (before ++ (if result then [] else [Fail]))%list
           /\ (Fail ∉ before) /\ (FailNow ∉ before)
  | (calls, Panics _, _) => (Fail ∉ calls) /\ (FailNow ∉ calls)
  end.
Proof.
  pose proof (logResult_calls result 1 args) as H.
  unfold test.Assert.
  destruct (test.logResult h flags st result 1 args) as [[calls [[]|reason]] st1];
    cbn [fst] in H;
    assert (Forall (fun c => c = Helper \/ exists format a, c = Logf format a)
              (Helper :: calls)) as H' by (constructor; [now left | exact H]).
  - split; [reflexivity|]. exists (Helper :: calls).
    split; [now destruct result | now apply no_failure_in].
  - now apply no_failure_in.
Qed.

Lemma Require_shape (result : bool) (args : list fmt.any) :
  match test.Require h flags st result args with
  | (calls, Returns _, _) =>
      exists before,
        calls = (before ++ (if result then [] else [FailNow]))%list
        /\ (Fail ∉ before) /\ (FailNow ∉ before)
  | (calls, Panics _, _) => (Fail ∉ calls) /\ (FailNow ∉ calls)
  end.
Proof.
  pose proof (logResult_calls result 1 args) as H.
  unfold test.Require.
  destruct (test.logResult h flags st result 1 args) as [[calls [[]|reason]] st1];
    cbn [fst] in H;
    assert (Forall (fun c => c = Helper \/ exists format a, c = Logf format a)
              (Helper :: calls)) as H' by (constructor; [now left | exact H]).
  - exists (Helper :: calls).
    split; [now destruct result | now apply no_failure_in].
  - now apply no_failure_in.
Qed.

(** X18. [Assert] returns the boolean it was given and calls [Fail]
    exactly when that boolean is false, once and as its last call;
    [Require] does the same with [FailNow].  When the explanation panics,
    neither is called. *)
Theorem X18_fails_exactly_when_false (result : bool) (args : list fmt.any) :
  match test.Assert h flags st result args with
  | (calls, Returns b, _) =>
      b = result
      /\ exists before,
           calls = (before ++ (if result then [] else [Fail]))%list
           /\ (Fail ∉ before) /\ (FailNow ∉ before)
  | (calls, Panics _, _) => (Fail ∉ calls) /\ (FailNow ∉ calls)
  end
  /\
  match test.Require h flags st result args with
  | (calls, Returns _, _) =>
      exists before,
        calls = (before ++ (if result then [] else [FailNow]))%list
        /\ (Fail ∉ before) /\ (FailNow ∉ before)
  | (calls, Panics _, _) => (Fail ∉ calls) /\ (FailNow ∉ calls)
  end.
Proof. split; [apply Assert_shape | apply Require_shape]. Qed.

(** X19. A passing assertion, with success messages switched off, does
    nothing but mark the helpers: it does not look at the stack, loads no
    package and logs nothing, whatever message arguments it was given. *)
Theorem X19_passing_assertion_is_free (args : list fmt.any) :
  SuccessMessageEnabled flags = false ->
  _flagEnableSuccessMessage flags = false ->
  test.Assert h flags st true args = ([Helper; Helper], Returns true, st)
  /\ test.Require h flags st true args = ([Helper; Helper], Returns tt, st).
Proof.
  intros H1 H2. unfold test.Assert, test.Require, test.logResult.
  rewrite H1, H2. split; reflexivity.
Qed.

(** X20. A failing assertion is never silent: when [Assert] returns on a
    false boolean, it has logged a line that starts with "Error: " or the
    line of an internal failure. *)
Theorem X20_failure_is_logged (args : list fmt.any) (calls : list TCall)
  (b : bool) (st1 : code.State) :
  test.Assert h flags st false args = (calls, Returns b, st1) ->
  (exists m, Logf "Error: %s" [op_string m] ∈ calls)
  \/ (exists err,
        Logf "krostar/test internal failure: unable to get assertion message: %v"
          [op_error err] ∈ calls).
Proof.
  unfold test.Assert, test.logResult. cbn [negb andb orb].
  destruct (FromBool h st (1 + 1) false) as [[[msg [err|]]|reason] st'] eqn:E;
    [| |discriminate]; intros [= <- _ _].
  - right. exists err. cbn [internalFailure app].
    apply list_elem_of_further, list_elem_of_further, list_elem_of_here.
  - left. apply FromBool_ok_nonempty in E.
    match goal with
    | |- context [test.withMsgAndArgs h msg ?l] =>
        pose proof (withMsgAndArgs_nonempty msg l E) as Hne;
        exists (test.withMsgAndArgs h msg l)
    end.
    rewrite bool_decide_eq_false_2 by exact Hne. cbn [negb internalFailure app].
    apply list_elem_of_further, list_elem_of_further, list_elem_of_here.
Qed.

(** X21. When the explanation fails without a message and the caller
    gave no message arguments, a failing [Assert] logs the internal
    failure only: there is no "Error: " line. *)
Theorem X21_failed_explanation_alone (err : error) (st1 : code.State) :
  FromBool h st (1 + 1) false = (Returns ("", Some err), st1) ->
  test.Assert h flags st false []
  = ([Helper; Helper;
      Logf "krostar/test internal failure: unable to get assertion message: %v"
        [op_error err];
      Fail], Returns false, st1).
Proof.
  intros H. unfold test.Assert, test.logResult. cbn [negb andb orb].
  now rewrite H.
Qed.

(** X22. A first message argument that is a non-empty string, followed by
    further arguments, is a format: the logged message ends with what
    [fmt.Sprintf] makes of it and the remaining arguments, between
    square brackets. *)
Theorem X22_format_and_arguments (result : bool) (i : Z) (format : string)
  (a : fmt.any) (rest : list fmt.any) (msg : string) (err : option error)
  (st1 : code.State) :
  (result && (SuccessMessageEnabled flags || _flagEnableSuccessMessage flags))
  || negb result = true ->
  FromBool h st (i + 1) result = (Returns (msg, err), st1) ->
  format <> "" ->
  test.logResult h flags st result i (fmt.any_string format :: a :: rest)
  = (Helper :: internalFailure err
       ++ [logMsg result
             (msg +:+ " [" +:+ fmt_Sprintf h format (a :: rest) +:+ "]")],
     Returns tt, st1)%list.
Proof.
  intros HG HF Hne. unfold test.logResult. cbn [fmt.is_empty_string].
  rewrite bool_decide_eq_false_2 by exact Hne.
  rewrite HG, HF. cbn [test.withMsgAndArgs fmt.as_string].
  rewrite (append_nonempty msg " [" (fmt_Sprintf h format (a :: rest) +:+ "]"))
    by discriminate.
  reflexivity.
Qed.

(** X23. In src/assert.go the first of two or more message arguments is
    taken for a string without a check: when it is none, [eval] panics on
    the type assertion, after the explanation was obtained and before
    anything is logged for the assertion itself. *)
Theorem X23_eval_needs_a_format_string (result : bool) (i : Z)
  (a b : fmt.any) (rest : list fmt.any) (msg : string) (err : option error)
  (st1 : code.State) :
  negb result || (result && SuccessMessageEnabled flags) = true ->
  FromBool h st (i + 1) result = (Returns (msg, err), st1) ->
  fmt.as_string a = None ->
  exists reason,
    assert_go.eval h flags st result i (a :: b :: rest)
    = (Helper :: internalFailure err, Panics reason, st1)
    /\ assert_go.must_string a = Panics reason.
Proof.
  intros HG HF Ha. unfold assert_go.eval. rewrite HG, HF.
  destruct a; try discriminate Ha; cbn; eauto.
Qed.

End OnTheTest.

(** ** The checks of package check *)

(** X24. [Panics] reports true exactly when the function panicked and the
    assertion on the reason, if there is one, accepted it; and the only
    panic that leaves [Panics] is one raised by that assertion. *)
Theorem X24_Panics_verdict (f : option (outcome unit))
  (assertReason : option (panic_value -> outcome (option string)))
  (msg : string) (p : panic_value) :
  (check.Panics f assertReason = Returns (true, msg)
   <-> msg = "function panicked like expected"
       /\ exists reason,
            f = Some (Panics reason)
            /\ (assertReason = None
                \/ exists g, assertReason = Some g /\ g reason = Returns None))
  /\
  (check.Panics f assertReason = Panics p
   <-> exists reason g,
         f = Some (Panics reason) /\ assertReason = Some g
         /\ g reason = Panics p).
Proof.
  unfold check.Panics. split; split.
  - destruct f as [[[]|reason]|]; try discriminate.
    destruct assertReason as [g|].
    + destruct (g reason) as [[e|]|q] eqn:E; try discriminate.
      intros [= <-]. split; [reflexivity|]. exists reason. split; [done|].
      right. now exists g.
    + intros [= <-]. split; [reflexivity|]. exists reason. now split; [|left].
  - intros (-> & reason & -> & [->|(g & -> & Hg)]); [reflexivity|].
    cbn. now rewrite Hg.
  - destruct f as [[[]|reason]|]; try discriminate.
    destruct assertReason as [g|]; [|discriminate].
    destruct (g reason) as [[e|]|q] eqn:E; try discriminate.
    intros [= <-]. now exists reason, g.
  - intros (reason & g & -> & -> & Hg). cbn. now rewrite Hg.
Qed.


(** ** The spy *)

Section SpyBookkeeping.

Variable Sprintf : string -> list operand -> string.

Lemma perform_from (calls : list TCall) (spy : double.Spy) :
  double.underlyingT (perform Sprintf spy calls)
  = (double.underlyingT spy ++ calls)%list
  /\ map double.Method (double.records (perform Sprintf spy calls))
     = (map double.Method (double.records spy) ++ map methodName calls)%list
  /\ double.logs (perform Sprintf spy calls)
     = (double.logs spy ++ logLines Sprintf calls)%list
  /\ (double.failed (perform Sprintf spy calls) = true
      <-> double.failed spy = true \/ Fail ∈ calls \/ FailNow ∈ calls).
Proof.
  revert spy. induction calls as [|c calls IH]; intros spy.
  - cbn. rewrite !app_nil_r. repeat split; [tauto|].
    intros [H|[H|H]]; [exact H | |]; now apply elem_of_nil in H.
  - unfold perform in *. cbn [fold_left].
    destruct (IH (double.call Sprintf spy c)) as (H1 & H2 & H3 & H4).
    rewrite H1, H2, H3, H4. clear IH H1 H2 H3 H4.
    destruct c; cbn [double.call double.Helper double.Fail double.FailNow
                     double.Logf double.underlyingT double.records
                     double.logs double.failed double.record
                     logLines omap methodName];
      rewrite ?map_app, <- ?app_assoc; cbn [map app double.Method];
      (split; [reflexivity|]); (split; [reflexivity|]);
      (split; [reflexivity|]);
      rewrite !elem_of_cons; intuition (try discriminate; auto).
Qed.

(** X26. The spy keeps the books: after any sequence of calls on a new
    spy, the wrapped test has received the same calls in the same order,
    there is one record per call under the name of its method, the logs
    are what the calls to [Logf] have formatted, and the spy counts as
    failed exactly when [Fail] or [FailNow] was among the calls. *)
Theorem X26_spy_bookkeeping (calls : list TCall) :
  let spy := perform Sprintf double.NewSpy calls in
  double.underlyingT spy = calls
  /\ map double.Method (double.records spy) = map methodName calls
  /\ double.logs spy = logLines Sprintf calls
  /\ (double.failed spy = true <-> Fail ∈ calls \/ FailNow ∈ calls).
Proof.
  destruct (perform_from calls double.NewSpy) as (H1 & H2 & H3 & H4).
  split; [exact H1 | split; [exact H2 | split; [exact H3|]]].
  rewrite H4. cbn [double.failed double.NewSpy].
  split; [intros [H|H]; [discriminate | exact H] | now right].
Qed.

(** X27. What the repository's tests of [Assert] expect of the spy: when
    [Assert] has run on a spy and returned, [ExpectTestToFail] passes
    exactly for a false boolean and [ExpectTestToPass] exactly for a true
    one; and after a passing assertion with success messages switched
    off, [ExpectNoLogs] passes. *)
Theorem X27_Assert_on_a_spy (h : Host) (flags : Flags) (st st1 : code.State)
  (result b : bool) (args : list fmt.any) (calls : list TCall) :
  test.Assert h flags st result args = (calls, Returns b, st1) ->
  let spy := perform Sprintf double.NewSpy calls in
  double.failed spy = negb result
  /\ (double.ExpectTestToFail spy = [Helper] <-> result = false)
  /\ (double.ExpectTestToPass spy = [Helper] <-> result = true)
  /\ (result = true -> SuccessMessageEnabled flags = false ->
      _flagEnableSuccessMessage flags = false ->
      double.ExpectNoLogs spy = [Helper]).
Proof.
  intros HA spy.
  assert (double.failed spy = negb result) as HF.
  { pose proof (Assert_shape h flags st result args) as HS.
    rewrite HA in HS. destruct HS as (_ & before & -> & Hn1 & Hn2).
    destruct (perform_from (before ++ (if result then [] else [Fail]))
                double.NewSpy) as (_ & _ & _ & H4).
    fold spy in H4. destruct result; cbn [negb].
    - destruct (double.failed spy); [|reflexivity].
      destruct H4 as [H4 _]. rewrite app_nil_r in H4.
      destruct (H4 eq_refl) as [H|[H|H]]; [discriminate | |]; contradiction.
    - apply H4. right. left. apply elem_of_app. right. apply list_elem_of_here. }
  split; [exact HF|].
  unfold double.ExpectTestToFail, double.ExpectTestToPass,
    double.ExpectNoLogs.
  rewrite HF. split; [|split].
  - destruct result; cbn; split; (discriminate || reflexivity).
  - destruct result; cbn; split; (discriminate || reflexivity).
  - intros -> H1 H2. clear HF.
    unfold test.Assert, test.logResult in HA. rewrite H1, H2 in HA.
    cbn in HA. injection HA as <- _ _. reflexivity.
Qed.

End SpyBookkeeping.

(** ** Records that seem equal *)

Lemma sameShape_sym (a b : double.param) :
  a <> double.param_nil -> b <> double.param_nil ->
  sameShape a b = sameShape b a.
Proof.
  intros Ha Hb. unfold sameShape, sameType.
  destruct a, b; try contradiction; cbn; try reflexivity;
    repeat case_bool_decide; subst; try congruence; cbn;
    try reflexivity; now destruct isNil, isNil0.
Qed.

Lemma assertParamsFrom_spec (x y : list double.param) :
  noNil x -> noNil y ->
  double.assertParamsFrom x y
  = Returns (forallb (fun pq => sameShape pq.1 pq.2) (zip x y)).
Proof.
  revert y. induction x as [|a x IH]; intros [|b y] Hx Hy; try reflexivity.
  apply Forall_cons in Hx as [Ha Hx]. apply Forall_cons in Hy as [Hb Hy].
  cbn [double.assertParamsFrom zip zip_with forallb fst snd].
  rewrite (IH y Hx Hy). clear IH.
  generalize (forallb (fun pq => sameShape pq.1 pq.2) (zip x y)).
  intros rest. unfold sameShape, sameType.
  destruct a, b; try contradiction; cbn;
    repeat case_bool_decide; subst; try congruence; cbn;
    try reflexivity;
    destruct isNil, isNil0; cbn; reflexivity.
Qed.

Lemma similar_spec (x y : list double.param) :
  noNil x -> noNil y -> double.assertParams x y = Returns (similar x y).
Proof.
  intros Hx Hy. unfold double.assertParams, similar.
  destruct (length x =? length y)%nat; cbn [negb andb];
    [now apply assertParamsFrom_spec | reflexivity].
Qed.

Lemma similar_sym (x y : list double.param) :
  noNil x -> noNil y -> similar x y = similar y x.
Proof.
  intros Hx Hy. unfold similar. rewrite (Nat.eqb_sym (length x)). f_equal.
  revert y Hy. induction Hx as [|a x Ha Hx IH]; intros [|b y] Hy;
    try reflexivity.
  apply Forall_cons in Hy as [Hb Hy]. cbn [zip zip_with forallb fst snd].
  rewrite (sameShape_sym a b Ha Hb). f_equal. now apply IH.
Qed.

Lemma seemsEqualTo_spec (a b : double.SpyTestingTRecord) :
  noNil (double.Inputs a) -> noNil (double.Outputs a) ->
  noNil (double.Inputs b) -> noNil (double.Outputs b) ->
  double.seemsEqualTo a b
  = Returns (bool_decide (double.Method a = double.Method b)
             && similar (double.Inputs a) (double.Inputs b)
             && similar (double.Outputs a) (double.Outputs b)).
Proof.
  intros Hia Hoa Hib Hob. unfold double.seemsEqualTo.
  rewrite (similar_spec _ _ Hia Hib), (similar_spec _ _ Hoa Hob).
  destruct (bool_decide (double.Method a = double.Method b)); [|reflexivity].
  cbn. destruct (similar (double.Inputs a) (double.Inputs b)); [|reflexivity].
  cbn. now destruct (similar (double.Outputs a) (double.Outputs b)).
Qed.

(** X28. On records without nil interface values, [seemsEqualTo] answers
    true exactly when the methods have the same name and inputs and
    outputs have the same length and agree position by position: one of
    the two values is the marker to ignore, or both have the same type
    and, if they are functions, are both nil or both not nil.  The values
    themselves are not compared. *)
Theorem X28_what_seems_equal (a b : double.SpyTestingTRecord) :
  noNil (double.Inputs a) -> noNil (double.Outputs a) ->
  noNil (double.Inputs b) -> noNil (double.Outputs b) ->
  double.seemsEqualTo a b
  = Returns (bool_decide (double.Method a = double.Method b)
             && similar (double.Inputs a) (double.Inputs b)
             && similar (double.Outputs a) (double.Outputs b)).
Proof. apply seemsEqualTo_spec. Qed.

(** X29. On records without nil interface values [seemsEqualTo] is
    symmetric, as go-cmp requires of the comparer it is used as. *)
Theorem X29_seemsEqualTo_is_symmetric (a b : double.SpyTestingTRecord) :
  noNil (double.Inputs a) -> noNil (double.Outputs a) ->
  noNil (double.Inputs b) -> noNil (double.Outputs b) ->
  double.seemsEqualTo a b = double.seemsEqualTo b a.
Proof.
  intros Hia Hoa Hib Hob.
  rewrite (seemsEqualTo_spec a b), (seemsEqualTo_spec b a) by assumption.
  rewrite (similar_sym _ _ Hia Hib), (similar_sym _ _ Hoa Hob).
  do 3 f_equal. apply bool_decide_ext. split; congruence.
Qed.

(** ** The further properties on the test package *)

Section MoreRuns.

Import sample.

Abbreviation flags_0 :=
  (ast.IndexExpr (id "flags") (ast.BasicLit token.INT "0")).
Abbreviation err_is_nil := (ast.BinaryExpr (id "err") token.EQL (id "nil")).
Abbreviation err_not_nil := (ast.BinaryExpr (id "err") token.NEQ (id "nil")).
Abbreviation check_call := (ast.CallExpr (id "check") []).
Abbreviation cached :=
  (code.GetPackageAST (host 1 10) empty "/src/example").2.
Abbreviation index :=
  (fold_left code.visit [pkg] (∅ : gmap string packages.Package)).
Abbreviation assert_err_nil :=
  {| ast.Fun := sel "test" "Assert"; ast.Args := [id "t"; err_is_nil] |}.
Abbreviation no_node_error :=
  (fmt_Errorf "unable to get call expr from caller: %v"
     [op_error (fmt_Errorf "unable to get call expression: %v"
        [op_error (errors_New "ast inspection did not return a node")])]).

Lemma X1_witness :
  customizeASTExprRepr pkg true flags_0
  = Returns ("", Some (fmt_Errorf "unhandled expr type %T" [op_Expr flags_0]))
  /\ "" = "".
Proof.
  split; [reflexivity|].
  exact (X1_error_comes_with_empty_message pkg flags_0 true ""
           (fmt_Errorf "unhandled expr type %T" [op_Expr flags_0]) eq_refl).
Defined.

Lemma X2_witness :
  customizeASTExprRepr pkg true err_is_nil = Returns ("err is nil", None)
  /\ "err is nil" <> "".
Proof.
  split; [reflexivity|].
  exact (X2_rendering_is_not_empty pkg err_is_nil true "err is nil" eq_refl).
Defined.

Lemma X3_witness :
  FromBool (host 1 10) empty 0 true = (Returns ("err is nil", None), cached)
  /\ "err is nil" <> "".
Proof.
  assert (FromBool (host 1 10) empty 0 true
          = (Returns ("err is nil", None), cached)) as H
    by (vm_compute; reflexivity).
  split; [exact H|].
  exact (X3_no_empty_message_without_error (host 1 10) empty 0 true
           "err is nil" cached H).
Defined.

(** [!(err == nil)] reads as [err != nil]: "err is not nil". *)
Lemma X6_witness :
  customizeASTExprRepr pkg true
    (ast.UnaryExpr token.NOT (ast.ParenExpr err_is_nil))
  = customizeASTExprRepr pkg true err_not_nil
  /\ customizeASTExprRepr pkg true err_not_nil
     = Returns ("err is not nil", None).
Proof.
  split; [|reflexivity].
  exact (proj1 (X6_negated_equality_is_inequality pkg true (id "err")
                  (id "nil") eq_refl)).
Defined.

(** [check() == false] under polarity true reads "check() returned true". *)
Lemma X7_witness :
  customizeASTExprRepr pkg true
    (ast.BinaryExpr check_call token.EQL (id "false"))
  = Returns ("check() returned true", None).
Proof.
  exact (proj1 (X7_call_compared_with_boolean pkg true check_call
                  (id "false") eq_refl eq_refl eq_refl)).
Defined.

Lemma X8_witness :
  customizeASTExprRepr pkg false err_is_nil
  = Returns ("err is not nil", None)
  /\ customizeASTExprRepr pkg false err_not_nil
     = Returns ("err is nil", None).
Proof.
  exact (X8_comparison_with_nil pkg false (id "err") (id "nil") eq_refl).
Defined.

(** The conversion [bool(ok)]. *)
Lemma X9_witness :
  customizeASTExprRepr more.pkg true (ast.CallExpr (id "bool") [id "ok"])
  = Panics nil_dereference.
Proof.
  exact (proj1 (X9_universe_callee_panics more.pkg true
                  {| ast.NamePos := 0%Z; ast.Name := "bool" |} (id "x")
                  [id "ok"]
                  (object types.TypeName "bool" None true (Some boolType))
                  eq_refl eq_refl)).
Defined.

Lemma X10_witness :
  customizeASTExprRepr more.pkg false
    (ast.CallExpr (sel "strings" "Contains") [id "s"; id "sub"])
  = Returns ("s does not contain sub", None)
  /\ customizeASTExprRepr more.pkg true
       (ast.CallExpr (sel "reflect" "DeepEqual") [id "got"; id "want"])
     = Returns ("got is equal to want", None).
Proof.
  split.
  - refine (proj1 (X10_known_helpers more.pkg false (id "strings")
                     (Some {| ast.NamePos := 0%Z; ast.Name := "Contains" |})
                     (id "s") (id "sub") [] "strings" "Contains" eq_refl) _).
    apply list_elem_of_further, list_elem_of_here.
  - refine (proj2 (X10_known_helpers more.pkg true (id "reflect")
                     (Some {| ast.NamePos := 0%Z; ast.Name := "DeepEqual" |})
                     (id "got") (id "want") [] "reflect" "DeepEqual" eq_refl) _).
    do 2 apply list_elem_of_further. apply list_elem_of_here.
Defined.



Lemma X14_witness :
  exists pkgs,
    packages_Load (host 1 10) [] "/src/example" = inl pkgs
    /\ Forall (fun p => packages.Errors p = []) pkgs
    /\ index = fold_left code.visit pkgs ∅.
Proof.
  assert (code.ParsePackageAST (host 1 10) [] "/src/example" = inl index)
    as H by (vm_compute; reflexivity).
  exact (X14_no_mapping_with_errors (host 1 10) [] "/src/example" index H).
Defined.


(** The assertions of lines 10 and 13 of the test file, one after the
    other. *)
Lemma X17_witness :
  (FromBool (host 1 10) empty 0 true).2 = cached
  /\ (FromBool (host 1 13) (FromBool (host 1 10) empty 0 true).2 0 false).2
     = cached.
Proof.
  assert (code.GetPackageAST (host 1 10) empty "/src/example"
          = (inl index, cached)) as H by (vm_compute; reflexivity).
  exact (X17_second_explanation_does_not_load (host 1 10) (host 1 13) empty
           0 0 true false file_go file_go 10 13 index cached
           eq_refl eq_refl eq_refl H).
Defined.

Lemma X19_witness :
  test.Assert (host 3 14) quiet empty true [fmt.any_string "hello"]
  = ([Helper; Helper], Returns true, empty)
  /\ test.Require (host 3 14) quiet empty true [fmt.any_string "hello"]
     = ([Helper; Helper], Returns tt, empty).
Proof.
  exact (X19_passing_assertion_is_free (host 3 14) quiet empty
           [fmt.any_string "hello"] eq_refl eq_refl).
Defined.

Lemma X20_witness :
  (exists m,
     Logf "Error: %s" [op_string m]
     ∈ [Helper; Helper; Logf "Error: %s" [op_string "literal false"]; Fail])
  \/ (exists err,
        Logf "krostar/test internal failure: unable to get assertion message: %v"
          [op_error err]
        ∈ [Helper; Helper; Logf "Error: %s" [op_string "literal false"]; Fail]).
Proof.
  assert (test.Assert (host 3 14) quiet empty false []
          = ([Helper; Helper; Logf "Error: %s" [op_string "literal false"];
              Fail], Returns false, cached)) as H
    by (vm_compute; reflexivity).
  exact (X20_failure_is_logged (host 3 14) quiet empty [] _ false cached H).
Defined.

(** Line 99 of the test file has no call. *)
Lemma X21_witness :
  test.Assert (host 3 99) quiet empty false []
  = ([Helper; Helper;
      Logf "krostar/test internal failure: unable to get assertion message: %v"
        [op_error no_node_error];
      Fail], Returns false, cached).
Proof.
  assert (FromBool (host 3 99) empty (1 + 1) false
          = (Returns ("", Some no_node_error), cached)) as H
    by (vm_compute; reflexivity).
  exact (X21_failed_explanation_alone (host 3 99) quiet empty no_node_error
           cached H).
Defined.

Lemma X22_witness :
  test.logResult (host 2 14) quiet empty false 0
    [fmt.any_string "hello from %s"; fmt.any_string "Test_Assert"]
  = ([Helper;
      Logf "Error: %s" [op_string "literal false [hello from Test_Assert]"]],
     Returns tt, cached).
Proof.
  assert (FromBool (host 2 14) empty (0 + 1) false
          = (Returns ("literal false", None), cached)) as H
    by (vm_compute; reflexivity).
  assert ("hello from %s" <> "") as Hne by discriminate.
  exact (X22_format_and_arguments (host 2 14) quiet empty false 0
           "hello from %s" (fmt.any_string "Test_Assert") [] "literal false"
           None cached eq_refl H Hne).
Defined.

Lemma X23_witness :
  exists reason,
    assert_go.eval (host 2 14) quiet empty false 0
      [fmt.any_int 42; fmt.any_string "hello"]
    = ([Helper], Panics reason, cached)
    /\ assert_go.must_string (fmt.any_int 42) = Panics reason.
Proof.
  assert (FromBool (host 2 14) empty (0 + 1) false
          = (Returns ("literal false", None), cached)) as H
    by (vm_compute; reflexivity).
  exact (X23_eval_needs_a_format_string (host 2 14) quiet empty false 0
           (fmt.any_int 42) (fmt.any_string "hello") [] "literal false" None
           cached eq_refl H eq_refl).
Defined.


Lemma X27_witness :
  double.ExpectTestToFail
    (perform more.SprintfOp double.NewSpy
       [Helper; Helper; Logf "Error: %s" [op_string "literal false"]; Fail])
  = [Helper]
  /\ double.logs
       (perform more.SprintfOp double.NewSpy
          [Helper; Helper; Logf "Error: %s" [op_string "literal false"]; Fail])
     = ["Error: literal false"].
Proof.
  split; [|reflexivity].
  assert (test.Assert (host 3 14) quiet empty false []
          = ([Helper; Helper; Logf "Error: %s" [op_string "literal false"];
              Fail], Returns false, cached)) as HA
    by (vm_compute; reflexivity).
  destruct (X27_Assert_on_a_spy more.SprintfOp (host 3 14) quiet empty cached
              false false [] _ HA) as (_ & H & _).
  now apply H.
Defined.

Lemma X28_witness :
  double.seemsEqualTo more.expected more.actual = Returns true.
Proof.
  rewrite (X28_what_seems_equal more.expected more.actual);
    [reflexivity | repeat constructor; discriminate ..].
Defined.

Lemma X29_witness :
  double.seemsEqualTo more.expected more.actual
  = double.seemsEqualTo more.actual more.expected.
Proof.
  apply X29_seemsEqualTo_is_symmetric; repeat constructor; discriminate.
Defined.

End MoreRuns.
